(** * Reminder store, validation and submission pipeline

    A shallow embedding of [src/reminder-system.tsx]: the reminder
    collection kept by [ReminderSystem] ([addReminder], [deleteReminder],
    [toggleComplete]), the visibility filter of [UpcomingReminders], and the
    form logic of [ReminderCard] ([validateForm], [handleSubmit],
    [requestNotificationPermission], [showBrowserNotification]).

    JavaScript strings are sequences of UTF-16 code units, numbers that come
    out of [Date] are integers or NaN, and React state is a value that a
    handler reads from the render it was created in and replaces for the
    next render.

    [src/reminder-card.tsx] is a stand-alone copy of the form with the same
    [validateForm] and the same [handleSubmit] except that it builds and
    stores no reminder; what is proved here about validation holds for it
    as well. *)

From Stdlib Require Import ZArith NArith List Bool Lia String Ascii.
From Stdlib Require Import Sorting.Sorted Sorting.Permutation.
From Stdlib Require Import DecimalString DecimalZ.
Import ListNotations.

Local Open Scope Z_scope.

(* ================================================================== *)
(** ** JavaScript strings *)

Module JsString.

(** A string is its sequence of UTF-16 code units. *)
Definition t := list N.

(** A literal whose characters are all below U+0100. *)
Definition lit (s : string) : t := map N_of_ascii (list_ascii_of_string s).

(** [===] on strings: the same code units in the same order. *)
Fixpoint eqb (a b : t) : bool :=
  match a, b with
  | [], [] => true
  | x :: a', y :: b' => N.eqb x y && eqb a' b'
  | _, _ => false
  end.

(** [!s] is true exactly for the empty string. *)
Definition falsy (s : t) : bool :=
  match s with [] => true | _ :: _ => false end.

(** WhiteSpace and LineTerminator code points of ECMAScript: TAB, LF, VT,
    FF, CR, the space separators (category Zs), LS, PS and the byte order
    mark.  All of them are single code units. *)
Definition isWhiteSpace (c : N) : bool :=
  (existsb (N.eqb c)
     [9; 10; 11; 12; 13; 32; 160; 5760; 8232; 8233; 8239; 8287; 12288; 65279]
   || ((8192 <=? c) && (c <=? 8202)))%N.

Fixpoint trimStart (s : t) : t :=
  match s with
  | [] => []
  | c :: s' => if isWhiteSpace c then trimStart s' else s
  end.

Definition trimEnd (s : t) : t := rev (trimStart (rev s)).

(** [String.prototype.trim]. *)
Definition trim (s : t) : t := trimEnd (trimStart s).

(** Empty or made of white space only. *)
Definition blank (s : t) : bool := forallb isWhiteSpace s.

(** [Number.prototype.toString] on an integer: its decimal digits, with a
    leading minus sign when negative. *)
Definition ofInteger (z : Z) : t := lit (NilZero.string_of_int (Z.to_int z)).

End JsString.

Abbreviation jsstring := JsString.t.

(* ================================================================== *)
(** ** Numbers produced by [Date] *)

(** [new Date(s).getTime()] is an integer number of milliseconds, or NaN
    when [s] does not parse; NaN is [None]. *)
Definition jsnumber := option Z.

(** [a > b] with [b] finite: false when [a] is NaN. *)
Definition num_gt (a : jsnumber) (b : Z) : bool :=
  match a with Some x => b <? x | None => false end.

(** [a <= b] with [b] finite: false when [a] is NaN. *)
Definition num_le (a : jsnumber) (b : Z) : bool :=
  match a with Some x => x <=? b | None => false end.

(** [a < b] with [b] finite: false when [a] is NaN. *)
Definition num_lt (a : jsnumber) (b : Z) : bool :=
  match a with Some x => x <? b | None => false end.

(** [a - b]: NaN as soon as one side is.  The difference of two time values
    can exceed 2^53 and is then rounded, but rounding keeps its sign, and the
    sign is all that [sort] looks at. *)
Definition num_sub (a b : jsnumber) : jsnumber :=
  match a, b with
  | Some x, Some y => Some (x - y)
  | _, _ => None
  end.

(* ================================================================== *)
(** ** [Array.prototype.sort] *)

Section ArraySort.

Context {A : Type}.
Variable comparefn : A -> A -> jsnumber.

(** SortCompare of ECMAScript: a NaN from the comparator counts as +0. *)
Definition SortCompare (x y : A) : Z :=
  match comparefn x y with Some v => v | None => 0 end.

(** [x] came before every element of [l] in the array; it moves right only
    past elements that compare strictly smaller. *)
Fixpoint insert (x : A) (l : list A) : list A :=
  match l with
  | [] => [x]
  | y :: l' => if 0 <? SortCompare x y then y :: insert x l' else x :: l
  end.

(** The sort is stable (ECMAScript 2019).  With a comparator that is a
    consistent ordering the result is fixed by that requirement, whatever
    the algorithm ([sort_determined] below); with an inconsistent one, as
    when some time is NaN, the order is left to the engine, and no theorem
    below depends on it. *)
Fixpoint sort (l : list A) : list A :=
  match l with
  | [] => []
  | x :: l' => insert x (sort l')
  end.

(** Order and classes of an integer sort key. *)
Variable key : A -> Z.

Definition key_le (a b : A) : Prop := key a <= key b.
Definition has_key (t : Z) (a : A) : bool := key a =? t.

End ArraySort.

(* ================================================================== *)
(** ** The data model *)

Module Reminder.

Record t := mk {
  id : jsstring;
  task : jsstring;
  time : jsstring;
  notifications : bool;
  completed : bool
}.

End Reminder.

Abbreviation Reminder := Reminder.t.

(* ================================================================== *)
(** ** The reminder collection and its view *)

(** What the page uses of the host's [Date]:
    [s => new Date(s).getTime()] and [s => new Date(s).toLocaleString()]. *)
Class DateApi := {
  dateParse : jsstring -> jsnumber;
  dateToLocaleString : jsstring -> jsstring
}.

Section Store.

Context {host_date : DateApi}.

Definition getTime (r : Reminder) : jsnumber := dateParse (Reminder.time r).

(** The comparator handed to [sort] in [addReminder]. *)
Definition byTime (a b : Reminder) : jsnumber :=
  num_sub (getTime a) (getTime b).

(** [[...prev, reminder].sort(byTime)] *)
Definition addReminder (reminder : Reminder) (prev : list Reminder)
  : list Reminder :=
  sort byTime (prev ++ [reminder]).

(** The updater of [deleteReminder]:
    [prev.filter(reminder => reminder.id !== id)] *)
Definition deleteReminder (id : jsstring) (prev : list Reminder)
  : list Reminder :=
  filter (fun reminder => negb (JsString.eqb (Reminder.id reminder) id)) prev.

(** The updater of [toggleComplete]:
    [prev.map(reminder => reminder.id === id
               ? {...reminder, completed: !reminder.completed} : reminder)] *)
Definition toggleComplete (id : jsstring) (prev : list Reminder)
  : list Reminder :=
  map (fun reminder =>
         if JsString.eqb (Reminder.id reminder) id
         then Reminder.mk (Reminder.id reminder) (Reminder.task reminder)
                (Reminder.time reminder) (Reminder.notifications reminder)
                (negb (Reminder.completed reminder))
         else reminder)
      prev.

(** The function mapped by [toggleComplete]. *)
Definition toggled (id : jsstring) (reminder : Reminder) : Reminder :=
  if JsString.eqb (Reminder.id reminder) id
  then Reminder.mk (Reminder.id reminder) (Reminder.task reminder)
         (Reminder.time reminder) (Reminder.notifications reminder)
         (negb (Reminder.completed reminder))
  else reminder.

(** The filter of [UpcomingReminders]:
    [new Date(reminder.time).getTime() > currentTime || !reminder.completed] *)
Definition isActive (currentTime : Z) (reminder : Reminder) : bool :=
  num_gt (getTime reminder) currentTime || negb (Reminder.completed reminder).

Definition activeReminders (currentTime : Z) (reminders : list Reminder)
  : list Reminder :=
  filter (isActive currentTime) reminders.

(** What [UpcomingReminders] renders: the empty card when
    [activeReminders.length === 0], else one [ReminderItem] per active
    reminder, in the order of the collection. *)
Inductive UpcomingView :=
| NoUpcoming
| Items (items : list Reminder).

Definition UpcomingReminders (currentTime : Z) (reminders : list Reminder)
  : UpcomingView :=
  let active := activeReminders currentTime reminders in
  if Nat.eqb (List.length active) 0 then NoUpcoming else Items active.

(** [ReminderItem]: [isPast] is [reminderTime < currentTime] on two [Date]
    objects, which compares their time values, and the Overdue badge (and
    the orange border) is shown for [isPast && !reminder.completed].  The
    clock is read anew by each item. *)
Definition isPast (currentTime : Z) (reminder : Reminder) : bool :=
  num_lt (getTime reminder) currentTime.

Definition overdue (currentTime : Z) (reminder : Reminder) : bool :=
  isPast currentTime reminder && negb (Reminder.completed reminder).

(** The reminders whose time the host can parse. *)
Definition parseable (r : Reminder) : Prop := exists t, getTime r = Some t.

(** The time of a reminder as a sort key (parseable reminders only). *)
Definition timeKey (r : Reminder) : Z :=
  match getTime r with Some t => t | None => 0 end.

(** [a] is due no later than [b]. *)
Definition time_le (a b : Reminder) : Prop :=
  exists ta tb, getTime a = Some ta /\ getTime b = Some tb /\ ta <= tb.

(** Non-decreasing order by time. *)
Definition Ascending (l : list Reminder) : Prop := StronglySorted time_le l.

(** The store's mutations, as the page can request them. *)
Inductive Mutation :=
| Add (reminder : Reminder)
| Delete (id : jsstring)
| ToggleComplete (id : jsstring).

Definition applyMutation (m : Mutation) (prev : list Reminder)
  : list Reminder :=
  match m with
  | Add reminder => addReminder reminder prev
  | Delete id => deleteReminder id prev
  | ToggleComplete id => toggleComplete id prev
  end.

(** The store after a sequence of mutations, the first one first. *)
Definition run (ms : list Mutation) (s : list Reminder) : list Reminder :=
  fold_left (fun s m => applyMutation m s) ms s.

(** Every reminder a mutation brings in has a parseable time. *)
Definition addsParseable (m : Mutation) : Prop :=
  match m with
  | Add reminder => parseable reminder
  | _ => True
  end.

End Store.

(** [a] occurs in [l] before an occurrence of [b]. *)
Definition Precedes (a b : Reminder) (l : list Reminder) : Prop :=
  exists l1 l2 l3, l = l1 ++ a :: l2 ++ b :: l3.


(* ================================================================== *)
(** ** The form: state, host and effects *)

(** [NotificationPermission | "default"] *)
Inductive NotificationPermission := default | granted | denied.

Definition permission_eqb (a b : NotificationPermission) : bool :=
  match a, b with
  | default, default | granted, granted | denied, denied => true
  | _, _ => false
  end.

(** [{ task?: string; time?: string; notification?: string }] *)
Module FormErrors.

Record t := mk {
  task : option string;
  time : option string;
  notification : option string
}.

Definition empty : t := mk None None None.

(** [Object.keys(e).length === 0] for an object built key by key. *)
Definition noKeys (e : t) : bool :=
  match task e, time e, notification e with
  | None, None, None => true
  | _, _, _ => false
  end.

Definition withNotification (msg : string) (e : t) : t :=
  mk (task e) (time e) (Some msg).

Definition withoutTask (e : t) : t := mk None (time e) (notification e).
Definition withoutTime (e : t) : t := mk (task e) None (notification e).
Definition withoutNotification (e : t) : t := mk (task e) (time e) None.

End FormErrors.

(** The [useState] cells of [ReminderCard]. *)
Module Card.

Record t := mk {
  task : jsstring;
  time : jsstring;
  notifications : bool;
  isSubmitting : bool;
  errors : FormErrors.t;
  notificationPermission : NotificationPermission
}.

(** The initial values of the cells. *)
Definition initial : t :=
  mk [] [] true false FormErrors.empty default.

End Card.

(** What [Notification.requestPermission()] does once it settles; a host
    without the Notification API never gets asked. *)
Inductive PermissionPrompt :=
| NoNotificationApi
| Resolves (permission : NotificationPermission)
| Rejects.

(** What the host supplies to one run of [handleSubmit]. *)
Record Host := {
  validationClock : Z;        (* [new Date().getTime()] in [validateForm] *)
  creationClock : Z;          (* [Date.now()] when the reminder is built *)
  prompt : PermissionPrompt
}.

(** Calls that leave the component. *)
Inductive Effect :=
| Toast (title : string) (description : jsstring)
| NewNotification (title : string) (body : jsstring)
| ConsoleError (message : string).

(** The state of [ReminderSystem] with its [ReminderCard], and the effects
    performed so far, oldest first. *)
Record World := mkWorld {
  card : Card.t;
  reminders : list Reminder;
  effects : list Effect
}.

(** Handlers are state transformers over [World]. *)
Definition M (A : Type) : Type := World -> A * World.

Definition ret {A} (a : A) : M A := fun w => (a, w).

Definition bind {A B} (m : M A) (k : A -> M B) : M B :=
  fun w => let (a, w') := m w in k a w'.

Notation "x <- m ;; k" := (bind m (fun x => k))
  (at level 61, m at next level, right associativity).
Notation "m ;; k" := (bind m (fun _ => k))
  (at level 61, right associativity).

Definition modifyCard (f : Card.t -> Card.t) : M unit :=
  fun w => (tt, mkWorld (f (card w)) (reminders w) (effects w)).

Definition setTask (v : jsstring) : M unit :=
  modifyCard (fun c => Card.mk v (Card.time c) (Card.notifications c)
    (Card.isSubmitting c) (Card.errors c) (Card.notificationPermission c)).

Definition setTime (v : jsstring) : M unit :=
  modifyCard (fun c => Card.mk (Card.task c) v (Card.notifications c)
    (Card.isSubmitting c) (Card.errors c) (Card.notificationPermission c)).

Definition setNotifications (v : bool) : M unit :=
  modifyCard (fun c => Card.mk (Card.task c) (Card.time c) v
    (Card.isSubmitting c) (Card.errors c) (Card.notificationPermission c)).

Definition setIsSubmitting (v : bool) : M unit :=
  modifyCard (fun c => Card.mk (Card.task c) (Card.time c)
    (Card.notifications c) v (Card.errors c) (Card.notificationPermission c)).

(** [setErrors(prev => f(prev))]; [setErrors(v)] is the constant updater. *)
Definition updateErrors (f : FormErrors.t -> FormErrors.t) : M unit :=
  modifyCard (fun c => Card.mk (Card.task c) (Card.time c)
    (Card.notifications c) (Card.isSubmitting c) (f (Card.errors c))
    (Card.notificationPermission c)).

Definition setErrors (v : FormErrors.t) : M unit := updateErrors (fun _ => v).

Definition setNotificationPermission (v : NotificationPermission) : M unit :=
  modifyCard (fun c => Card.mk (Card.task c) (Card.time c)
    (Card.notifications c) (Card.isSubmitting c) (Card.errors c) v).

(** [setReminders(prev => f(prev))] *)
Definition setReminders (f : list Reminder -> list Reminder) : M unit :=
  fun w => (tt, mkWorld (card w) (f (reminders w)) (effects w)).

Definition perform (e : Effect) : M unit :=
  fun w => (tt, mkWorld (card w) (reminders w) (effects w ++ [e])).

(** The handlers that [ReminderSystem] passes to the list: the updater, and
    for a deletion the toast, shown whether or not a reminder went away. *)
Definition onDelete (id : jsstring) : M unit :=
  setReminders (deleteReminder id) ;;
  perform (Toast "Reminder deleted"
             (JsString.lit "The reminder has been removed")).

Definition onToggleComplete (id : jsstring) : M unit :=
  setReminders (toggleComplete id).

(* ================================================================== *)
(** ** [ReminderCard]: validation and submission *)

Section ReminderCard.

Context {host_date : DateApi}.

(** [requestNotificationPermission]: the settled permission is stored and
    returned; without the API, or when the request throws, the answer is
    ["denied"] and the cell is left alone. *)
Definition requestNotificationPermission (host : Host)
  : M NotificationPermission :=
  match prompt host with
  | NoNotificationApi => ret denied
  | Resolves permission =>
      setNotificationPermission permission ;; ret permission
  | Rejects =>
      perform (ConsoleError "Error requesting notification permission:") ;;
      ret denied
  end.

(** [showBrowserNotification], in the render [snap]; a constructor that
    throws is caught and logged there and changes nothing else. *)
Definition showBrowserNotification (snap : Card.t)
    (title : string) (body : jsstring) : M unit :=
  if permission_eqb (Card.notificationPermission snap) granted
  then perform (NewNotification title body)
  else ret tt.

(** The object [newErrors] that [validateForm] builds. *)
Definition newErrors (host : Host) (snap : Card.t) : FormErrors.t :=
  FormErrors.mk
    (if JsString.falsy (JsString.trim (Card.task snap))
     then Some "Please enter a task description"%string
     else None)
    (if JsString.falsy (Card.time snap)
     then Some "Please select a time for your reminder"%string
     else
       let selectedTime := dateParse (Card.time snap) in
       let currentTime := validationClock host in
       if num_le selectedTime currentTime
       then Some "Please select a future time"%string
       else None)
    (if Card.notifications snap
        && permission_eqb (Card.notificationPermission snap) denied
     then Some "Notifications are blocked by your browser"%string
     else None).

Definition validateForm (host : Host) (snap : Card.t) : M bool :=
  setErrors (newErrors host snap) ;;
  ret (FormErrors.noKeys (newErrors host snap)).

(** The sentence shown in the toast and in the notification. *)
Definition reminderSetText (snap : Card.t) : jsstring :=
  JsString.lit "You'll be reminded about " ++ [34%N] ++ Card.task snap
    ++ [34%N] ++ JsString.lit " at " ++ dateToLocaleString (Card.time snap).

(** The object [newReminder] that [handleSubmit] builds. *)
Definition createdReminder (host : Host) (snap : Card.t) : Reminder :=
  Reminder.mk (JsString.ofInteger (creationClock host))
    (Card.task snap) (Card.time snap) (Card.notifications snap) false.

(** [handleSubmit] of the render [snap]: [task], [time], [notifications]
    and [notificationPermission] are the constants of that render, while
    every setter acts on the live state.  The closing [setIsSubmitting]
    is the [finally] block, which also runs after an early [return].
    Nothing in the [try] block throws, so the [catch] block has no run. *)
Definition handleSubmit (host : Host) (snap : Card.t) : M unit :=
  setIsSubmitting true ;;
  valid <- validateForm host snap ;;
  if negb valid then
    setIsSubmitting false ;;
    setIsSubmitting false
  else
    allowed <-
      (if Card.notifications snap
          && negb (permission_eqb (Card.notificationPermission snap) granted)
       then
         permission <- requestNotificationPermission host ;;
         if negb (permission_eqb permission granted) then
           updateErrors (FormErrors.withNotification
             "Please allow notifications to receive reminders") ;;
           setIsSubmitting false ;;
           ret false
         else ret true
       else ret true) ;;
    if negb allowed then
      setIsSubmitting false
    else
      let newReminder := createdReminder host snap in
      setReminders (addReminder newReminder) ;;
      perform (Toast "Reminder set!" (reminderSetText snap)) ;;
      (if Card.notifications snap
          && permission_eqb (Card.notificationPermission snap) granted
       then showBrowserNotification snap "Reminder Set" (reminderSetText snap)
       else ret tt) ;;
      setTask [] ;;
      setTime [] ;;
      setErrors FormErrors.empty ;;
      setIsSubmitting false.

(** What [handleSubmit] asks of the permission: it has to be requested when
    notifications are wanted and the render does not hold ["granted"], and
    the request then has to come back ["granted"]. *)
Definition needsPrompt (snap : Card.t) : bool :=
  Card.notifications snap
  && negb (permission_eqb (Card.notificationPermission snap) granted).

Definition promptGrants (host : Host) : bool :=
  match prompt host with
  | Resolves granted => true
  | _ => false
  end.

(** The draft of the render [snap] is valid and the permission step lets it
    through. *)
Definition accepted (host : Host) (snap : Card.t) : bool :=
  FormErrors.noKeys (newErrors host snap)
  && (negb (needsPrompt snap) || promptGrants host).

(** The user submits the form as it is rendered: the handler of the
    current render runs on the current state. *)
Definition submit (host : Host) (w : World) : World :=
  snd (handleSubmit host (card w) w).

(** The [onChange] handlers of the two inputs. *)
Definition onTaskChange (value : jsstring) (snap : Card.t) : M unit :=
  setTask value ;;
  match FormErrors.task (Card.errors snap) with
  | Some _ => setErrors (FormErrors.withoutTask (Card.errors snap))
  | None => ret tt
  end.

Definition onTimeChange (value : jsstring) (snap : Card.t) : M unit :=
  setTime value ;;
  match FormErrors.time (Card.errors snap) with
  | Some _ => setErrors (FormErrors.withoutTime (Card.errors snap))
  | None => ret tt
  end.

(** The [onCheckedChange] handler of the switch.  The request is started
    and not awaited; its answer reaches the permission cell after the
    handler has returned, and since the handler writes other cells only, the
    state once the request has settled is the one computed here. *)
Definition onNotificationsChange (checked : bool) (host : Host)
    (snap : Card.t) : M unit :=
  setNotifications checked ;;
  (if checked
      && negb (permission_eqb (Card.notificationPermission snap) granted)
   then _ <- requestNotificationPermission host ;; ret tt
   else ret tt) ;;
  match FormErrors.notification (Card.errors snap) with
  | Some _ => setErrors (FormErrors.withoutNotification (Card.errors snap))
  | None => ret tt
  end.

(** The user types a task and picks a time. *)
Definition fill (task time : jsstring) (w : World) : World :=
  let w1 := snd (onTaskChange task (card w) w) in
  snd (onTimeChange time (card w1) w1).

End ReminderCard.

(** [src/reminder-card.tsx]: the form on its own.  Its [validateForm],
    [requestNotificationPermission] and [showBrowserNotification] are those
    above, and its [handleSubmit] goes from the permission step straight to
    the toast. *)
Module StandaloneCard.

Section Handlers.

Context {host_date : DateApi}.

Definition handleSubmit (host : Host) (snap : Card.t) : M unit :=
  setIsSubmitting true ;;
  valid <- validateForm host snap ;;
  if negb valid then
    setIsSubmitting false ;;
    setIsSubmitting false
  else
    allowed <-
      (if Card.notifications snap
          && negb (permission_eqb (Card.notificationPermission snap) granted)
       then
         permission <- requestNotificationPermission host ;;
         if negb (permission_eqb permission granted) then
           updateErrors (FormErrors.withNotification
             "Please allow notifications to receive reminders") ;;
           setIsSubmitting false ;;
           ret false
         else ret true
       else ret true) ;;
    if negb allowed then
      setIsSubmitting false
    else
      perform (Toast "Reminder set!" (reminderSetText snap)) ;;
      (if Card.notifications snap
          && permission_eqb (Card.notificationPermission snap) granted
       then showBrowserNotification snap "Reminder Set" (reminderSetText snap)
       else ret tt) ;;
      setTask [] ;;
      setTime [] ;;
      setErrors FormErrors.empty ;;
      setIsSubmitting false.

End Handlers.

End StandaloneCard.

(** The page after mounting, with a store read from storage and the
    permission the browser reports. *)
Definition mounted (stored : list Reminder) (permission : NotificationPermission)
  : World :=
  snd (setNotificationPermission permission (mkWorld Card.initial stored [])).

(* ================================================================== *)
(** ** A sample host *)

(** A host whose local time zone is UTC and whose parser accepts exactly the
    values a [datetime-local] input produces, [YYYY-MM-DDTHH:mm]; everything
    else is an invalid date.  The theorems hold for every parser; this one
    instantiates them. *)
Module SampleHost.

Definition digit (c : N) : option Z :=
  if ((48 <=? c) && (c <=? 57))%N then Some (Z.of_N c - 48) else None.

Fixpoint number (acc : Z) (s : jsstring) : option Z :=
  match s with
  | [] => Some acc
  | c :: s' =>
      match digit c with
      | Some d => number (10 * acc + d) s'
      | None => None
      end
  end.

Definition isLeap (y : Z) : bool :=
  ((y mod 4 =? 0) && negb (y mod 100 =? 0)) || (y mod 400 =? 0).

Definition daysInMonth (y m : Z) : Z :=
  if m =? 2 then (if isLeap y then 29 else 28)
  else if (m =? 4) || (m =? 6) || (m =? 9) || (m =? 11) then 30
  else 31.

(** Days from 1970-01-01 to the given civil date. *)
Definition daysFromCivil (y m d : Z) : Z :=
  let y' := if m <=? 2 then y - 1 else y in
  let era := y' / 400 in
  let yoe := y' - era * 400 in
  let doy := (153 * (if 2 <? m then m - 3 else m + 9) + 2) / 5 + d - 1 in
  let doe := yoe * 365 + yoe / 4 - yoe / 100 + doy in
  era * 146097 + doe - 719468.

Definition sep (c : N) (s : jsstring) : bool :=
  match s with [c'] => N.eqb c c' | _ => false end.

Definition field (from len : nat) (s : jsstring) : jsstring :=
  firstn len (skipn from s).

Definition dateParse (s : jsstring) : jsnumber :=
  if negb (Nat.eqb (List.length s) 16) then None
  else if negb (sep 45 (field 4 1 s) && sep 45 (field 7 1 s)
                && sep 84 (field 10 1 s) && sep 58 (field 13 1 s)) then None
  else
    match number 0 (field 0 4 s), number 0 (field 5 2 s),
          number 0 (field 8 2 s), number 0 (field 11 2 s),
          number 0 (field 14 2 s) with
    | Some y, Some m, Some d, Some h, Some n =>
        if (1 <=? m) && (m <=? 12) && (1 <=? d) && (d <=? daysInMonth y m)
           && (h <=? 23) && (n <=? 59)
        then Some ((((daysFromCivil y m d) * 24 + h) * 60 + n) * 60000)
        else None
    | _, _, _, _, _ => None
    end.

(** The ISO rendering stands in for the locale's. *)
Definition dateToLocaleString (s : jsstring) : jsstring := s.

Definition api : DateApi := Build_DateApi dateParse dateToLocaleString.

End SampleHost.

(** Sample runs of the page on the sample host. *)
Module Scenario.

Definition callMom : jsstring := JsString.lit "Call mom".
Definition buyMilk : jsstring := JsString.lit "Buy milk".
Definition tenOClock : jsstring := JsString.lit "2030-01-01T10:00".
Definition noon : jsstring := JsString.lit "2030-01-01T12:00".

Definition reminderAt (created : Z) (task time : jsstring) (completed : bool)
  : Reminder :=
  Reminder.mk (JsString.ofInteger created) task time true completed.

Definition mom : Reminder := reminderAt 1 callMom tenOClock false.
Definition milk : Reminder := reminderAt 2 buyMilk noon false.
Definition gym : Reminder := reminderAt 3 (JsString.lit "Gym") tenOClock true.

Definition stored : list Reminder := [mom; gym; milk].

(** Drafts with notifications switched off. *)
Definition draft (task time : jsstring) : Card.t :=
  Card.mk task time false false FormErrors.empty default.

Definition blankDraft : Card.t := draft (JsString.lit "   ") tenOClock.
Definition paddedDraft : Card.t := draft (JsString.lit "  Call mom  ") tenOClock.

(** A draft whose time the sample host cannot parse. *)
Definition vagueDraft : Card.t := draft callMom (JsString.lit "tomorrow").

(** A draft with notifications wanted, in a render that holds [permission]. *)
Definition notifyingDraft (permission : NotificationPermission) : Card.t :=
  Card.mk callMom tenOClock true false FormErrors.empty permission.

(** The user answers the prompt with Block. *)
Definition blocking : Host :=
  {| validationClock := 1700000000000;
     creationClock := 1700000000005;
     prompt := Resolves denied |}.

(** A later reading of the clock. *)
Definition later : Host :=
  {| validationClock := 1700000060000;
     creationClock := 1700000060007;
     prompt := NoNotificationApi |}.

(** The instant [tenOClock] parses to, and a clock that reads it. *)
Definition tenOClockInstant : Z := 1893492000000.

Definition atTen : Host :=
  {| validationClock := tenOClockInstant;
     creationClock := tenOClockInstant;
     prompt := NoNotificationApi |}.

(** A clock in November 2023; the user answers the prompt with Allow. *)
Definition allowing : Host :=
  {| validationClock := 1700000000000;
     creationClock := 1700000000005;
     prompt := Resolves granted |}.

(** First visit: the browser reports ["default"], the switch is on as it is
    initially, the user fills the form. *)
Definition firstVisit : World :=
  fill callMom tenOClock (mounted [] default).

(** A later visit, permission already granted; two reminders are submitted
    while [Date.now()] reads the same millisecond. *)
Definition firstSubmitted : World :=
  @submit SampleHost.api allowing
    (fill callMom tenOClock (mounted [] granted)).

Definition secondSubmitted : World :=
  @submit SampleHost.api allowing (fill buyMilk noon firstSubmitted).

End Scenario.

(* ================================================================== *)
(** ** Proof steps *)

(** Unfolds a handler down to its state transformer. *)
Ltac unfold_pipeline :=
  unfold handleSubmit, validateForm, requestNotificationPermission,
    showBrowserNotification, setErrors, updateErrors, setIsSubmitting,
    setNotificationPermission, setReminders, setTask, setTime, perform,
    modifyCard, bind, ret.

(** Decide [time_le] and [parseable] on closed reminders by evaluation. *)
Ltac sample_time_le :=
  do 2 eexists; split; [reflexivity | split; [reflexivity | cbv; discriminate]].

Ltac sample_parseable := eexists; reflexivity.

(** Splits a run of a submission handler along its branches. *)
Ltac pipeline_cases host snap :=
  destruct (FormErrors.noKeys (newErrors host snap)) eqn:?; simpl;
  [ destruct (Card.notifications snap) eqn:?; simpl;
    [ destruct (Card.notificationPermission snap) eqn:?; simpl;
      try (destruct (prompt host) as [|[| |]|] eqn:?; simpl)
    | ]
  | ].

(* ================================================================== *)
(** ** Facts about strings *)

Lemma eqb_eq (a b : jsstring) : JsString.eqb a b = true <-> a = b.
Proof.
  revert b; induction a as [|x a IH]; intros [|y b]; simpl;
    try (split; [discriminate | discriminate]); try tauto.
  rewrite andb_true_iff, N.eqb_eq, IH.
  split; [intros [-> ->]; reflexivity | intros H; inversion H; auto].
Qed.

Lemma eqb_refl (a : jsstring) : JsString.eqb a a = true.
Proof. apply eqb_eq; reflexivity. Qed.

Lemma trimStart_blank (s : jsstring) :
  JsString.blank s = true -> JsString.trimStart s = [].
Proof.
  induction s as [|c s IH]; simpl; [reflexivity|].
  destruct (JsString.isWhiteSpace c); simpl; [exact IH | discriminate].
Qed.

Lemma trim_blank (s : jsstring) :
  JsString.blank s = true -> JsString.trim s = [].
Proof.
  intros H. unfold JsString.trim, JsString.trimEnd.
  rewrite (trimStart_blank s H). reflexivity.
Qed.

Lemma trimStart_nil_blank (s : jsstring) :
  JsString.trimStart s = [] -> JsString.blank s = true.
Proof.
  induction s as [|c s IH]; simpl; [reflexivity|].
  destruct (JsString.isWhiteSpace c); simpl; [exact IH | discriminate].
Qed.

Lemma trim_nil_blank (s : jsstring) :
  JsString.trim s = [] -> JsString.blank s = true.
Proof.
  unfold JsString.trim, JsString.trimEnd. intros H.
  apply (f_equal (@rev N)) in H. rewrite rev_involutive in H. simpl in H.
  apply trimStart_nil_blank in H.
  unfold JsString.blank in H. rewrite forallb_forall in H.
  assert (E : JsString.trimStart s = []).
  { clear -H. induction s as [|c s IH]; simpl in *; [reflexivity|].
    destruct (JsString.isWhiteSpace c) eqn:W.
    - apply IH. intros x Hx. apply H. exact Hx.
    - specialize (H c). rewrite <- in_rev in H.
      rewrite H in W; [discriminate | left; reflexivity]. }
  apply trimStart_nil_blank, E.
Qed.

(** [!task.trim()] holds exactly for the blank strings. *)
Lemma falsy_trim (s : jsstring) :
  JsString.falsy (JsString.trim s) = JsString.blank s.
Proof.
  destruct (JsString.blank s) eqn:B.
  - rewrite (trim_blank s B). reflexivity.
  - destruct (JsString.trim s) eqn:T; [|reflexivity].
    apply trim_nil_blank in T. congruence.
Qed.

Lemma lit_inj (s s' : string) : JsString.lit s = JsString.lit s' -> s = s'.
Proof.
  unfold JsString.lit. intros E.
  rewrite <- (string_of_list_ascii_of_string s),
          <- (string_of_list_ascii_of_string s').
  f_equal. revert E.
  generalize (list_ascii_of_string s) (list_ascii_of_string s').
  induction l as [|a l IH]; intros [|b l'] E; simpl in E;
    try discriminate; [reflexivity|].
  inversion E as [[Eab El]]. f_equal; [|apply IH, El].
  rewrite <- (ascii_N_embedding a), <- (ascii_N_embedding b), Eab.
  reflexivity.
Qed.

(** Different integers print differently. *)
Lemma ofInteger_inj (a b : Z) :
  JsString.ofInteger a = JsString.ofInteger b -> a = b.
Proof.
  unfold JsString.ofInteger. intros E. apply lit_inj in E.
  assert (R : forall z, NilZero.int_of_string
                          (NilZero.string_of_int (Z.to_int z))
                        = Some (Z.to_int z)).
  { intros z. apply NilZero.isi; destruct z; simpl; try discriminate;
      intros X; inversion X as [Y];
      exact (DecimalPos.Unsigned.to_uint_nonnil _ Y). }
  apply DecimalZ.to_int_inj.
  pose proof (R a) as Ra. rewrite E, R in Ra. congruence.
Qed.

(* ================================================================== *)
(** ** Facts about [sort] *)

Section SortFacts.

Context {A : Type}.
Variable comparefn : A -> A -> jsnumber.

Lemma insert_perm (x : A) (l : list A) :
  Permutation (insert comparefn x l) (x :: l).
Proof.
  induction l as [|y l IH]; simpl; [apply Permutation_refl|].
  destruct (0 <? SortCompare comparefn x y).
  - eapply perm_trans; [apply perm_skip, IH | apply perm_swap].
  - apply Permutation_refl.
Qed.

Lemma sort_perm (l : list A) : Permutation (sort comparefn l) l.
Proof.
  induction l as [|x l IH]; simpl; [constructor|].
  eapply perm_trans; [apply insert_perm | apply perm_skip, IH].
Qed.

(** The comparator is the difference of an integer key on the elements
    that satisfy [P]. *)
Variable key : A -> Z.
Variable P : A -> Prop.
Hypothesis compare_key :
  forall x y, P x -> P y -> comparefn x y = Some (key x - key y).

Lemma sort_Forall (l : list A) : Forall P l -> Forall P (sort comparefn l).
Proof.
  intros H. eapply Permutation_Forall; [|exact H].
  apply Permutation_sym, sort_perm.
Qed.

Lemma insert_sorted (x : A) (l : list A) :
  P x -> Forall P l -> StronglySorted (key_le key) l ->
  StronglySorted (key_le key) (insert comparefn x l).
Proof.
  intros Px Pl S. induction S as [|y l S IH F]; simpl.
  - constructor; constructor.
  - inversion Pl as [|? ? Py Pl']; subst.
    unfold SortCompare. rewrite (compare_key x y Px Py).
    destruct (0 <? key x - key y) eqn:C.
    + apply Z.ltb_lt in C. constructor; [apply IH, Pl'|].
      eapply Permutation_Forall; [apply Permutation_sym, insert_perm|].
      constructor; [unfold key_le; lia | exact F].
    + apply Z.ltb_ge in C. constructor; [constructor; assumption|].
      constructor; [unfold key_le; lia|].
      eapply Forall_impl; [|exact F]. unfold key_le. intros a Ha. lia.
Qed.

Lemma sort_sorted (l : list A) :
  Forall P l -> StronglySorted (key_le key) (sort comparefn l).
Proof.
  induction l as [|x l IH]; simpl; intros H; [constructor|].
  inversion H; subst.
  apply insert_sorted; [assumption | apply sort_Forall; assumption | auto].
Qed.

(** Stability: among the elements of one key nothing moves. *)
Lemma insert_filter_key (t : Z) (x : A) (l : list A) :
  P x -> Forall P l ->
  filter (has_key key t) (insert comparefn x l) = filter (has_key key t) (x :: l).
Proof.
  intros Px Pl. induction Pl as [|y l Py Pl IH]; [reflexivity|].
  simpl insert. unfold SortCompare. rewrite (compare_key x y Px Py).
  destruct (0 <? key x - key y) eqn:C; [|reflexivity].
  apply Z.ltb_lt in C. simpl filter at 1. rewrite IH. simpl.
  unfold has_key.
  destruct (key x =? t) eqn:Ex, (key y =? t) eqn:Ey; try reflexivity.
  apply Z.eqb_eq in Ex, Ey. lia.
Qed.

Lemma sort_stable (t : Z) (l : list A) :
  Forall P l -> filter (has_key key t) (sort comparefn l) = filter (has_key key t) l.
Proof.
  induction l as [|x l IH]; intros H; [reflexivity|].
  inversion H; subst. simpl sort.
  rewrite insert_filter_key by (auto using sort_Forall).
  simpl. rewrite IH by assumption. reflexivity.
Qed.

(** A list in key order is fixed by its sublists of equal keys. *)
Lemma sorted_by_classes (l1 l2 : list A) :
  StronglySorted (key_le key) l1 -> StronglySorted (key_le key) l2 ->
  (forall t, filter (has_key key t) l1 = filter (has_key key t) l2) ->
  l1 = l2.
Proof.
  intros S1. revert l2. induction S1 as [|x l1 S1 IH F1]; intros l2 S2 E.
  - destruct l2 as [|y l2]; [reflexivity|].
    specialize (E (key y)). simpl in E. unfold has_key in E at 1.
    rewrite Z.eqb_refl in E. discriminate.
  - destruct S2 as [|y l2 S2 F2].
    + specialize (E (key x)). simpl in E. unfold has_key in E at 1.
      rewrite Z.eqb_refl in E. discriminate.
    + assert (Le1 : key y <= key x).
      { assert (I : In x (filter (has_key key (key x)) (y :: l2))).
        { rewrite <- E. simpl. unfold has_key at 1. rewrite Z.eqb_refl.
          left; reflexivity. }
        apply filter_In in I. destruct I as [[->|I] _]; [lia|].
        rewrite Forall_forall in F2. apply F2, I. }
      assert (Le2 : key x <= key y).
      { assert (I : In y (filter (has_key key (key y)) (x :: l1))).
        { rewrite E. simpl. unfold has_key at 1. rewrite Z.eqb_refl.
          left; reflexivity. }
        apply filter_In in I. destruct I as [[->|I] _]; [lia|].
        rewrite Forall_forall in F1. apply F1, I. }
      assert (K : key x = key y) by lia.
      assert (Hx : has_key key (key x) x = true) by apply Z.eqb_refl.
      assert (Hy : has_key key (key x) y = true)
        by (unfold has_key; rewrite K; apply Z.eqb_refl).
      pose proof (E (key x)) as E0. simpl in E0. rewrite Hx, Hy in E0.
      inversion E0 as [[Exy E0']]. subst y.
      f_equal. apply IH; [exact S2|]. intros t. specialize (E t).
      simpl in E. destruct (has_key key t x); [inversion E|]; auto.
Qed.

(** Whatever stable sorting algorithm the engine runs, on a consistent
    comparator it returns what [sort] returns. *)
Lemma sort_determined (l l' : list A) :
  Forall P l ->
  StronglySorted (key_le key) l' ->
  (forall t, filter (has_key key t) l' = filter (has_key key t) l) ->
  l' = sort comparefn l.
Proof.
  intros Pl S E. apply sorted_by_classes; [exact S | apply sort_sorted, Pl|].
  intros t. rewrite E, sort_stable by exact Pl. reflexivity.
Qed.

End SortFacts.

Example sample_parse :
  SampleHost.dateParse (JsString.lit "2030-01-01T10:00") = Some 1893492000000.
Proof. vm_compute. reflexivity. Qed.

Example sample_parse_epoch :
  SampleHost.dateParse (JsString.lit "1970-01-01T00:00") = Some 0.
Proof. vm_compute. reflexivity. Qed.

Example sample_parse_invalid :
  SampleHost.dateParse (JsString.lit "tomorrow") = None.
Proof. vm_compute. reflexivity. Qed.


(* ================================================================== *)
(** ** The collection: order, deletion, completion *)

Section StoreFacts.

Context {host_date : DateApi}.

Lemma byTime_key (x y : Reminder) :
  parseable x -> parseable y ->
  byTime x y = Some (timeKey x - timeKey y).
Proof.
  intros [tx Hx] [ty Hy]. unfold byTime, timeKey.
  rewrite Hx, Hy. reflexivity.
Qed.

Lemma key_le_time_le (a b : Reminder) :
  parseable a -> parseable b -> key_le timeKey a b -> time_le a b.
Proof.
  intros [ta Ha] [tb Hb]. unfold key_le, timeKey.
  rewrite Ha, Hb. intros H. exists ta, tb. auto.
Qed.

Lemma key_sorted_ascending (l : list Reminder) :
  Forall parseable l -> StronglySorted (key_le timeKey) l -> Ascending l.
Proof.
  intros Pl S. induction S as [|x l S IH F]; [constructor|].
  inversion Pl as [|? ? Px Pl']; subst.
  constructor; [apply IH, Pl'|].
  rewrite Forall_forall in *. intros y Hy.
  apply key_le_time_le; auto.
Qed.

Lemma addReminder_perm (r : Reminder) (prev : list Reminder) :
  Permutation (addReminder r prev) (r :: prev).
Proof.
  unfold addReminder.
  eapply perm_trans; [apply sort_perm|].
  apply Permutation_sym, Permutation_cons_append.
Qed.

Lemma addReminder_ascending (r : Reminder) (prev : list Reminder) :
  Forall parseable prev -> parseable r -> Ascending (addReminder r prev).
Proof.
  intros Pp Pr.
  assert (Pa : Forall parseable (prev ++ [r])).
  { apply Forall_app; split; [exact Pp | constructor; [exact Pr | constructor]]. }
  apply key_sorted_ascending.
  - apply sort_Forall, Pa.
  - apply (sort_sorted byTime timeKey parseable byTime_key), Pa.
Qed.

Lemma filter_StronglySorted {A} (R : A -> A -> Prop) (f : A -> bool)
    (l : list A) :
  StronglySorted R l -> StronglySorted R (filter f l).
Proof.
  induction 1 as [|x l S IH F]; simpl; [constructor|].
  destruct (f x); [|exact IH].
  constructor; [exact IH|].
  rewrite Forall_forall in *. intros y Hy. apply filter_In in Hy.
  apply F, Hy.
Qed.

Lemma deleteReminder_ascending (id : jsstring) (prev : list Reminder) :
  Ascending prev -> Ascending (deleteReminder id prev).
Proof. apply filter_StronglySorted. Qed.

Lemma activeReminders_ascending (now : Z) (prev : list Reminder) :
  Ascending prev -> Ascending (activeReminders now prev).
Proof. apply filter_StronglySorted. Qed.

(** Flipping [completed] leaves the time alone. *)
Lemma toggled_time (id : jsstring) (r : Reminder) :
  getTime (toggled id r) = getTime r.
Proof.
  unfold toggled, getTime.
  destruct (JsString.eqb (Reminder.id r) id); reflexivity.
Qed.

Lemma toggleComplete_ascending (id : jsstring) (prev : list Reminder) :
  Ascending prev -> Ascending (toggleComplete id prev).
Proof.
  change (toggleComplete id prev) with (map (toggled id) prev).
  induction 1 as [|x l S IH F]; simpl; [constructor|].
  constructor; [exact IH|].
  rewrite Forall_forall in *. intros y Hy.
  apply in_map_iff in Hy. destruct Hy as [z [<- Hz]].
  destruct (F z Hz) as [ta [tb [Ha [Hb Hab]]]].
  exists ta, tb. rewrite !toggled_time. auto.
Qed.

(** C1.  With parseable times, [addReminder] leaves the whole collection in
    non-decreasing order of time whatever order it was in before, and
    [deleteReminder], [toggleComplete] and the view read back through
    [activeReminders] keep a collection that is in that order in it.  The
    collection so ordered is the full one: after [addReminder] it is a
    rearrangement of the old reminders and the new one, nothing lost and
    nothing twice; [deleteReminder] keeps exactly the reminders under other
    ids; [toggleComplete] keeps every time, place by place; and the view
    holds exactly the reminders of the collection that pass the filter. *)
Theorem time_order_after_every_mutation :
  (forall prev reminder,
      Forall parseable prev -> parseable reminder ->
      Ascending (addReminder reminder prev))
  /\ (forall prev id, Ascending prev -> Ascending (deleteReminder id prev))
  /\ (forall prev id, Ascending prev -> Ascending (toggleComplete id prev))
  /\ (forall prev now, Ascending prev -> Ascending (activeReminders now prev))
  /\ (forall prev reminder,
        Permutation (addReminder reminder prev) (reminder :: prev))
  /\ (forall prev id r,
        In r (deleteReminder id prev) <-> In r prev /\ Reminder.id r <> id)
  /\ (forall prev id,
        map Reminder.time (toggleComplete id prev) = map Reminder.time prev)
  /\ (forall prev now r,
        In r (activeReminders now prev) <->
        In r prev /\ isActive now r = true).
Proof.
  split; [|split; [|split; [|split; [|split; [|split; [|split]]]]]].
  - intros. apply addReminder_ascending; assumption.
  - intros. apply deleteReminder_ascending; assumption.
  - intros. apply toggleComplete_ascending; assumption.
  - intros. apply activeReminders_ascending; assumption.
  - intros. apply addReminder_perm.
  - intros prev id r. unfold deleteReminder.
    rewrite filter_In, negb_true_iff.
    split; intros [I E]; (split; [exact I|]).
    + intros X. apply eqb_eq in X. congruence.
    + destruct (JsString.eqb (Reminder.id r) id) eqn:X; [|reflexivity].
      apply eqb_eq in X. contradiction.
  - intros prev id. change (toggleComplete id prev) with (map (toggled id) prev).
    rewrite map_map. apply map_ext. intros r. unfold toggled.
    destruct (JsString.eqb (Reminder.id r) id); reflexivity.
  - intros prev now r. unfold activeReminders. apply filter_In.
Qed.

Lemma applyMutation_parseable (m : Mutation) (prev : list Reminder) :
  addsParseable m -> Forall parseable prev ->
  Forall parseable (applyMutation m prev).
Proof.
  destruct m as [r|id|id]; simpl; intros Hm Hp.
  - eapply Permutation_Forall; [apply Permutation_sym, addReminder_perm|].
    constructor; assumption.
  - rewrite Forall_forall in *. intros x Hx. apply filter_In in Hx.
    apply Hp, Hx.
  - rewrite Forall_forall in *. intros x Hx.
    change (toggleComplete id prev) with (map (toggled id) prev) in Hx.
    apply in_map_iff in Hx. destruct Hx as [z [<- Hz]].
    destruct (Hp z Hz) as [t Ht]. exists t. rewrite toggled_time. exact Ht.
Qed.

(** The order is an invariant of the store: it holds after every mutation of
    every sequence that starts from an ordered collection. *)
Lemma run_ascending (ms : list Mutation) (s : list Reminder) :
  Forall (addsParseable) ms -> Forall parseable s -> Ascending s ->
  Ascending (run ms s).
Proof.
  revert s. induction ms as [|m ms IH]; intros s Hms Hp Hs; [exact Hs|].
  inversion Hms as [|? ? Hm Hms']; subst. simpl. apply IH; [exact Hms'| |].
  - apply applyMutation_parseable; assumption.
  - destruct m as [r|id|id]; simpl.
    + apply addReminder_ascending; assumption.
    + apply deleteReminder_ascending; assumption.
    + apply toggleComplete_ascending; assumption.
Qed.

(** C2.  The view holds exactly the reminders of the collection that are due
    after [now] or not completed; hence a reminder is left out exactly when it
    is completed and not due after [now], a single completed reminder that is
    not in the future gives an empty view, and a completed reminder of the
    future is shown. *)
Theorem activeReminders_membership (now : Z) (reminders : list Reminder)
    (r : Reminder) :
  (In r (activeReminders now reminders) <->
     In r reminders
     /\ ((exists t, getTime r = Some t /\ now < t)
         \/ Reminder.completed r = false))
  /\ (In r reminders ->
      (~ In r (activeReminders now reminders) <->
         Reminder.completed r = true
         /\ forall t, getTime r = Some t -> t <= now))
  /\ (forall t, getTime r = Some t -> t <= now ->
      Reminder.completed r = true -> activeReminders now [r] = [])
  /\ (forall t, getTime r = Some t -> now < t ->
      activeReminders now [r] = [r]).
Proof.
  assert (A : isActive now r = true <->
              (exists t, getTime r = Some t /\ now < t)
              \/ Reminder.completed r = false).
  { unfold isActive. rewrite orb_true_iff, negb_true_iff.
    unfold num_gt. destruct (getTime r) as [t|]; split.
    - intros [L|C]; [left; exists t; split; [reflexivity | apply Z.ltb_lt, L]
                    | right; exact C].
    - intros [[t' [E L]]|C]; [left; inversion E; subst; apply Z.ltb_lt, L
                             | right; exact C].
    - intros [L|C]; [discriminate | right; exact C].
    - intros [[t' [E _]]|C]; [discriminate | right; exact C]. }
  split; [|split; [|split]].
  - unfold activeReminders. rewrite filter_In, A. reflexivity.
  - intros I. unfold activeReminders. rewrite filter_In. split.
    + intros N.
      assert (E : ~ ((exists t, getTime r = Some t /\ now < t)
                     \/ Reminder.completed r = false)).
      { intros X. apply A in X. apply N. auto. }
      split.
      * destruct (Reminder.completed r); [reflexivity|].
        exfalso. apply E. right. reflexivity.
      * intros t Ht. destruct (Z.le_gt_cases t now) as [L|G]; [exact L|].
        exfalso. apply E. left. eauto.
    + intros [C P] [_ E]. apply A in E. destruct E as [[t [Ht L]]|F].
      * specialize (P t Ht). lia.
      * congruence.
  - intros t Ht L C. unfold activeReminders. simpl.
    assert (X : isActive now r <> true).
    { intros E. apply A in E. destruct E as [[t' [Ht' L']]|F]; [|congruence].
      rewrite Ht in Ht'. inversion Ht'; subst. lia. }
    destruct (isActive now r); [exfalso; apply X; reflexivity | reflexivity].
  - intros t Ht L. unfold activeReminders. simpl.
    assert (X : isActive now r = true) by (apply A; left; eauto).
    rewrite X. reflexivity.
Qed.

(** A sublist cut out by a filter splits the list around each of its
    elements. *)
Lemma filter_split {A} (f : A -> bool) (l xs ys : list A) (a : A) :
  filter f l = xs ++ a :: ys ->
  exists l1 l2, l = l1 ++ a :: l2 /\ filter f l1 = xs /\ filter f l2 = ys.
Proof.
  revert xs. induction l as [|z l IH]; intros xs E; simpl in E.
  - destruct xs; discriminate.
  - destruct (f z) eqn:Fz.
    + destruct xs as [|x xs]; simpl in E; inversion E; subst.
      * exists [], l. simpl. auto.
      * destruct (IH xs H1) as [l1 [l2 [-> [E1 E2]]]].
        exists (x :: l1), l2. simpl. rewrite Fz, E1. auto.
    + destruct (IH xs E) as [l1 [l2 [-> [E1 E2]]]].
      exists (z :: l1), l2. simpl. rewrite Fz. auto.
Qed.

Lemma addReminder_parseable (r : Reminder) (prev : list Reminder) :
  Forall parseable prev -> parseable r -> Forall parseable (addReminder r prev).
Proof.
  intros Hp Hr.
  eapply Permutation_Forall; [apply Permutation_sym, addReminder_perm|].
  constructor; assumption.
Qed.

(** Adding leaves the reminders of each instant in the order they had, the
    new one last. *)
Lemma addReminder_stable (t : Z) (r : Reminder) (prev : list Reminder) :
  Forall parseable prev -> parseable r ->
  filter (has_key timeKey t) (addReminder r prev)
  = filter (has_key timeKey t) (prev ++ [r]).
Proof.
  intros Hp Hr. unfold addReminder.
  apply (sort_stable byTime timeKey parseable byTime_key).
  apply Forall_app; split; [exact Hp | constructor; [exact Hr | constructor]].
Qed.

(** C5.  When two reminders of the same instant are added one after the
    other, the first added stands before the second in the collection: the
    reminders of that instant are those already there, then the first, then
    the second; from the empty collection the result is the first followed by
    the second. *)
Theorem equal_times_keep_insertion_order (prev : list Reminder)
    (r1 r2 : Reminder) (t : Z) :
  Forall parseable prev -> getTime r1 = Some t -> getTime r2 = Some t ->
  Precedes r1 r2 (addReminder r2 (addReminder r1 prev))
  /\ filter (has_key timeKey t) (addReminder r2 (addReminder r1 prev))
     = filter (has_key timeKey t) prev ++ [r1; r2]
  /\ (prev = [] -> addReminder r2 (addReminder r1 prev) = [r1; r2]).
Proof.
  intros Hp H1 H2.
  assert (P1 : parseable r1) by (exists t; exact H1).
  assert (P2 : parseable r2) by (exists t; exact H2).
  assert (K1 : has_key timeKey t r1 = true)
    by (unfold has_key, timeKey; rewrite H1; apply Z.eqb_refl).
  assert (K2 : has_key timeKey t r2 = true)
    by (unfold has_key, timeKey; rewrite H2; apply Z.eqb_refl).
  assert (S : filter (has_key timeKey t) (addReminder r2 (addReminder r1 prev))
              = filter (has_key timeKey t) prev ++ [r1; r2]).
  { rewrite addReminder_stable by (auto using addReminder_parseable).
    rewrite filter_app, addReminder_stable by assumption.
    rewrite filter_app. simpl. rewrite K1, K2, <- app_assoc. reflexivity. }
  split; [|split; [exact S|]].
  - destruct (filter_split _ _ _ _ _ S) as [l1 [l2 [E [_ E2]]]].
    destruct (filter_split _ _ [] [] _ E2) as [m1 [m2 [E3 _]]].
    exists l1, m1, m2. rewrite E, E3. reflexivity.
  - intros ->. unfold addReminder. simpl. unfold SortCompare, byTime.
    rewrite H1, H2. simpl. rewrite Z.sub_diag. reflexivity.
Qed.

(** C8.  Deleting by an id twice is deleting once, and deleting an id that
    no reminder carries returns the collection as it was. *)
Theorem deleteReminder_idempotent (prev : list Reminder) (id : jsstring) :
  deleteReminder id (deleteReminder id prev) = deleteReminder id prev
  /\ (~ In id (map Reminder.id prev) -> deleteReminder id prev = prev).
Proof.
  split.
  - unfold deleteReminder. induction prev as [|r prev IH]; [reflexivity|].
    simpl. destruct (JsString.eqb (Reminder.id r) id) eqn:E; simpl.
    + exact IH.
    + rewrite E. simpl. rewrite IH. reflexivity.
  - unfold deleteReminder. induction prev as [|r prev IH]; [reflexivity|].
    simpl. intros N.
    destruct (JsString.eqb (Reminder.id r) id) eqn:E; simpl.
    + apply eqb_eq in E. exfalso. apply N. left. exact E.
    + rewrite IH; [reflexivity|]. intros I. apply N. right. exact I.
Qed.

(** The handler changes the collection by the updater and nothing else of
    the state. *)
Lemma onDelete_reminders (id : jsstring) (w : World) :
  reminders (snd (onDelete id w)) = deleteReminder id (reminders w)
  /\ card (snd (onDelete id w)) = card w.
Proof. split; reflexivity. Qed.

Lemma toggled_involutive (id : jsstring) (r : Reminder) :
  toggled id (toggled id r) = r.
Proof.
  unfold toggled. destruct (JsString.eqb (Reminder.id r) id) eqn:E.
  - simpl. rewrite E. destruct r. simpl. rewrite negb_involutive. reflexivity.
  - rewrite E. reflexivity.
Qed.

(** C9.  Toggling the same id twice gives back the collection, and with it
    the [completed] value of every reminder; one toggle does flip the
    [completed] value of a reminder that carries the id. *)
Theorem toggleComplete_involutive (prev : list Reminder) (id : jsstring) :
  toggleComplete id (toggleComplete id prev) = prev
  /\ (forall r, In r prev -> Reminder.id r = id ->
      In (Reminder.mk (Reminder.id r) (Reminder.task r) (Reminder.time r)
            (Reminder.notifications r) (negb (Reminder.completed r)))
         (toggleComplete id prev)).
Proof.
  split.
  - change (map (toggled id) (map (toggled id) prev) = prev).
    rewrite map_map. rewrite <- (map_id prev) at 2.
    apply map_ext. intros r. apply toggled_involutive.
  - intros r I E. change (toggleComplete id prev) with (map (toggled id) prev).
    apply in_map_iff. exists r. split; [|exact I].
    unfold toggled. rewrite E, eqb_refl. reflexivity.
Qed.

End StoreFacts.

(* ================================================================== *)
(** ** The submission pipeline *)

Section PipelineFacts.

Context {host_date : DateApi}.

(** A draft that fails validation: the errors are shown and nothing else
    happens. *)
Lemma handleSubmit_invalid (host : Host) (snap : Card.t) (w : World) :
  FormErrors.noKeys (newErrors host snap) = false ->
  snd (handleSubmit host snap w)
  = mkWorld
      (Card.mk (Card.task (card w)) (Card.time (card w))
         (Card.notifications (card w)) false (newErrors host snap)
         (Card.notificationPermission (card w)))
      (reminders w) (effects w).
Proof.
  intros E. unfold_pipeline. simpl. rewrite E. reflexivity.
Qed.

(** A draft that is not accepted leaves the collection alone and shows
    neither toast nor notification. *)
Lemma handleSubmit_rejected (host : Host) (snap : Card.t) (w : World) :
  accepted host snap = false ->
  reminders (snd (handleSubmit host snap w)) = reminders w
  /\ forall e, In e (effects (snd (handleSubmit host snap w))) ->
       In e (effects w) \/ exists m, e = ConsoleError m.
Proof.
  unfold accepted, needsPrompt, promptGrants. intros E.
  destruct (FormErrors.noKeys (newErrors host snap)) eqn:V.
  - simpl in E. apply orb_false_iff in E. destruct E as [E1 E2].
    apply negb_false_iff in E1.
    unfold_pipeline. simpl. rewrite V, E1. simpl.
    destruct (prompt host) as [|p|]; simpl.
    + split; [reflexivity | auto].
    + destruct p; simpl; try discriminate; split; try reflexivity; auto.
    + split; [reflexivity|]. intros e I. apply in_app_or in I.
      destruct I as [I|[<-|[]]]; [left; exact I | right; eexists; reflexivity].
  - rewrite (handleSubmit_invalid host snap w V). simpl. auto.
Qed.

(** An accepted draft: the reminder is built from the fields of the render
    and added, the toast is shown, and the notification is shown when the
    render held ["granted"]. *)
Lemma handleSubmit_accepted (host : Host) (snap : Card.t) (w : World) :
  accepted host snap = true ->
  reminders (snd (handleSubmit host snap w))
  = addReminder (createdReminder host snap) (reminders w)
  /\ effects (snd (handleSubmit host snap w))
     = effects w
       ++ Toast "Reminder set!" (reminderSetText snap)
       :: (if Card.notifications snap
              && permission_eqb (Card.notificationPermission snap) granted
           then [NewNotification "Reminder Set" (reminderSetText snap)]
           else []).
Proof.
  unfold accepted, needsPrompt, promptGrants. intros E.
  apply andb_true_iff in E. destruct E as [V G].
  unfold_pipeline. unfold createdReminder. simpl. rewrite V. simpl.
  destruct (Card.notifications snap) eqn:N; simpl in *.
  - destruct (Card.notificationPermission snap) eqn:Q; simpl in *.
    + destruct (prompt host) as [|p|]; try discriminate.
      destruct p; try discriminate. simpl. auto.
    + rewrite <- app_assoc. simpl. auto.
    + destruct (prompt host) as [|p|]; try discriminate.
      destruct p; try discriminate. simpl. auto.
  - auto.
Qed.

Lemma task_error_iff_blank (host : Host) (snap : Card.t) :
  FormErrors.task (newErrors host snap)
  = if JsString.blank (Card.task snap)
    then Some "Please enter a task description"%string else None.
Proof. unfold newErrors. simpl. rewrite falsy_trim. reflexivity. Qed.

(** C3.  A draft whose task is empty or white space only gets the task error,
    and the submission leaves the collection and the effects as they were. *)
Theorem blank_task_is_rejected (host : Host) (snap : Card.t) (w : World) :
  JsString.blank (Card.task snap) = true ->
  JsString.trim (Card.task snap) = []
  /\ FormErrors.task (Card.errors (card (snd (handleSubmit host snap w))))
     = Some "Please enter a task description"%string
  /\ reminders (snd (handleSubmit host snap w)) = reminders w
  /\ effects (snd (handleSubmit host snap w)) = effects w.
Proof.
  intros B.
  assert (T : FormErrors.task (newErrors host snap)
              = Some "Please enter a task description"%string)
    by (rewrite task_error_iff_blank, B; reflexivity).
  assert (V : FormErrors.noKeys (newErrors host snap) = false)
    by (unfold FormErrors.noKeys; rewrite T; reflexivity).
  rewrite (handleSubmit_invalid host snap w V). simpl.
  auto using trim_blank.
Qed.

(** C4.  A missing time gets the missing-time error; a time that parses to
    an instant not after the clock read by the validation, the very instant
    of the clock included, gets the future-time error; either way the
    collection stays as it was.  A time that parses is free of error exactly
    when it is strictly after that clock. *)
Theorem past_or_missing_time_is_rejected (host : Host) (snap : Card.t)
    (w : World) :
  (Card.time snap = [] ->
     FormErrors.time (Card.errors (card (snd (handleSubmit host snap w))))
     = Some "Please select a time for your reminder"%string
     /\ reminders (snd (handleSubmit host snap w)) = reminders w)
  /\ (forall t, Card.time snap <> [] -> dateParse (Card.time snap) = Some t ->
      t <= validationClock host ->
      FormErrors.time (Card.errors (card (snd (handleSubmit host snap w))))
      = Some "Please select a future time"%string
      /\ reminders (snd (handleSubmit host snap w)) = reminders w)
  /\ (forall t, Card.time snap <> [] -> dateParse (Card.time snap) = Some t ->
      (FormErrors.time (newErrors host snap) = None <->
       validationClock host < t)).
Proof.
  split; [|split].
  - intros E.
    assert (T : FormErrors.time (newErrors host snap)
                = Some "Please select a time for your reminder"%string)
      by (unfold newErrors; simpl; rewrite E; reflexivity).
    assert (V : FormErrors.noKeys (newErrors host snap) = false)
      by (unfold FormErrors.noKeys; rewrite T;
          destruct (FormErrors.task _); reflexivity).
    rewrite (handleSubmit_invalid host snap w V). simpl. auto.
  - intros t N P L.
    assert (T : FormErrors.time (newErrors host snap)
                = Some "Please select a future time"%string).
    { unfold newErrors. simpl. destruct (Card.time snap); [congruence|].
      simpl. rewrite P. simpl.
      destruct (Z.leb_spec t (validationClock host)); [reflexivity | lia]. }
    assert (V : FormErrors.noKeys (newErrors host snap) = false)
      by (unfold FormErrors.noKeys; rewrite T;
          destruct (FormErrors.task _); reflexivity).
    rewrite (handleSubmit_invalid host snap w V). simpl. auto.
  - intros t N P. unfold newErrors. simpl.
    destruct (Card.time snap); [congruence|]. simpl. rewrite P. simpl.
    destruct (Z.leb_spec t (validationClock host)); split;
      try discriminate; try reflexivity; lia.
Qed.

(** A time that does not parse is outside the comparison: NaN is not below
    the clock, so such a draft is free of the time error. *)
Lemma unparseable_time_has_no_error (host : Host) (snap : Card.t) :
  Card.time snap <> [] -> dateParse (Card.time snap) = None ->
  FormErrors.time (newErrors host snap) = None.
Proof.
  intros N P. unfold newErrors. simpl.
  destruct (Card.time snap); [congruence|]. simpl. rewrite P. reflexivity.
Qed.

(** C10.  An accepted draft is stored with the task exactly as submitted:
    the collection becomes the old one plus the reminder built from the
    fields of the draft, whose task is the draft's, untrimmed. *)
Theorem stored_task_is_verbatim (host : Host) (snap : Card.t) (w : World) :
  accepted host snap = true ->
  reminders (snd (handleSubmit host snap w))
  = addReminder (createdReminder host snap) (reminders w)
  /\ exists r,
       In r (reminders (snd (handleSubmit host snap w)))
       /\ Reminder.id r = JsString.ofInteger (creationClock host)
       /\ Reminder.task r = Card.task snap.
Proof.
  intros Acc. destruct (handleSubmit_accepted host snap w Acc) as [R _].
  split; [exact R|]. exists (createdReminder host snap).
  split; [|split; reflexivity].
  rewrite R. eapply Permutation_in.
  - apply Permutation_sym, addReminder_perm.
  - left. reflexivity.
Qed.


(** A submission that had to ask for the permission and got it stores the
    reminder and shows the toast, and no notification. *)
Lemma stale_permission_skips_notification (host : Host) (snap : Card.t)
    (w : World) :
  FormErrors.noKeys (newErrors host snap) = true ->
  Card.notifications snap = true ->
  Card.notificationPermission snap <> granted ->
  prompt host = Resolves granted ->
  reminders (snd (handleSubmit host snap w))
  = addReminder (createdReminder host snap) (reminders w)
  /\ effects (snd (handleSubmit host snap w))
     = effects w ++ [Toast "Reminder set!" (reminderSetText snap)].
Proof.
  intros V N Q G.
  assert (Acc : accepted host snap = true).
  { unfold accepted, promptGrants. rewrite V, G, orb_true_r. reflexivity. }
  destruct (handleSubmit_accepted host snap w Acc) as [R E].
  split; [exact R|]. rewrite E, N.
  destruct (Card.notificationPermission snap); simpl; congruence.
Qed.

(** The id of an accepted draft is the clock reading alone: when the
    collection already holds that reading, the ids are no longer distinct. *)
Lemma repeated_clock_repeats_id (host : Host) (snap : Card.t) (w : World) :
  accepted host snap = true ->
  In (JsString.ofInteger (creationClock host)) (map Reminder.id (reminders w)) ->
  ~ NoDup (map Reminder.id (reminders (snd (handleSubmit host snap w)))).
Proof.
  intros Acc I D. destruct (handleSubmit_accepted host snap w Acc) as [R _].
  rewrite R in D.
  assert (P : Permutation
                (map Reminder.id (addReminder (createdReminder host snap)
                                    (reminders w)))
                (map Reminder.id (createdReminder host snap :: reminders w)))
    by apply Permutation_map, addReminder_perm.
  apply (Permutation_NoDup P) in D. simpl in D.
  inversion D; subst. contradiction.
Qed.

(** With a reading that no stored id carries, distinct ids stay distinct. *)
Lemma fresh_clock_keeps_ids_distinct (host : Host) (snap : Card.t)
    (w : World) :
  accepted host snap = true ->
  NoDup (map Reminder.id (reminders w)) ->
  ~ In (JsString.ofInteger (creationClock host))
       (map Reminder.id (reminders w)) ->
  NoDup (map Reminder.id (reminders (snd (handleSubmit host snap w)))).
Proof.
  intros Acc D F. destruct (handleSubmit_accepted host snap w Acc) as [R _].
  rewrite R.
  eapply Permutation_NoDup.
  - apply Permutation_sym, Permutation_map, addReminder_perm.
  - simpl. constructor; assumption.
Qed.

(** X13.  Ids made from clock readings that all differ from the new one stay
    distinct. *)
Lemma distinct_clocks_distinct_ids (host : Host) (snap : Card.t) (w : World) :
  accepted host snap = true ->
  NoDup (map Reminder.id (reminders w)) ->
  (forall r, In r (reminders w) ->
     exists c, Reminder.id r = JsString.ofInteger c /\ c <> creationClock host) ->
  NoDup (map Reminder.id (reminders (snd (handleSubmit host snap w)))).
Proof.
  intros Acc D F. apply fresh_clock_keeps_ids_distinct; [assumption..|].
  intros I. apply in_map_iff in I. destruct I as [r [E I]].
  destruct (F r I) as [c [Ec Nc]]. rewrite Ec in E.
  apply ofInteger_inj in E. congruence.
Qed.

End PipelineFacts.

(* ================================================================== *)
(** ** The sample runs *)

(** C6.  First visit, notifications wanted, permission still ["default"]: the
    user allows notifications at the prompt and the cell becomes
    ["granted"], the reminder is stored and the toast is shown, but the
    submission performs no [new Notification]: the effects are the toast
    alone. *)
Theorem first_grant_shows_no_notification :
  Card.notifications (card Scenario.firstVisit) = true
  /\ Card.notificationPermission (card Scenario.firstVisit) = default
  /\ prompt Scenario.allowing = Resolves granted
  /\ Card.notificationPermission
       (card (submit (host_date := SampleHost.api)
                Scenario.allowing Scenario.firstVisit)) = granted
  /\ map Reminder.task
       (reminders (submit (host_date := SampleHost.api)
                     Scenario.allowing Scenario.firstVisit))
     = [Scenario.callMom]
  /\ effects (submit (host_date := SampleHost.api)
                Scenario.allowing Scenario.firstVisit)
     = [Toast "Reminder set!"
          (reminderSetText (host_date := SampleHost.api)
             (card Scenario.firstVisit))].
Proof. vm_compute. repeat split. Qed.

(** C7.  Two drafts submitted while the clock reads the same millisecond are
    both stored, under one and the same id; deleting by that id removes
    both. *)
Theorem same_millisecond_same_id :
  map Reminder.task (reminders Scenario.secondSubmitted)
  = [Scenario.callMom; Scenario.buyMilk]
  /\ map Reminder.id (reminders Scenario.secondSubmitted)
     = [JsString.lit "1700000000005"; JsString.lit "1700000000005"]
  /\ ~ NoDup (map Reminder.id (reminders Scenario.secondSubmitted))
  /\ deleteReminder (JsString.lit "1700000000005")
       (reminders Scenario.secondSubmitted) = [].
Proof.
  assert (E : map Reminder.id (reminders Scenario.secondSubmitted)
              = [JsString.lit "1700000000005"; JsString.lit "1700000000005"])
    by (vm_compute; reflexivity).
  split; [vm_compute; reflexivity|]. split; [exact E|].
  split; [|vm_compute; reflexivity].
  rewrite E. intros D. inversion D as [|? ? N _]. apply N. left. reflexivity.
Qed.

Lemma sample_stored_ascending :
  Ascending (host_date := SampleHost.api) Scenario.stored.
Proof.
  unfold Scenario.stored.
  repeat (constructor; try sample_time_le).
Defined.

Lemma time_order_after_every_mutation_witness :
  Ascending (host_date := SampleHost.api)
    (addReminder (host_date := SampleHost.api) Scenario.mom
       [Scenario.milk; Scenario.gym])
  /\ Ascending (host_date := SampleHost.api)
       (deleteReminder (JsString.ofInteger 3) Scenario.stored)
  /\ Ascending (host_date := SampleHost.api)
       (toggleComplete (JsString.ofInteger 1) Scenario.stored)
  /\ Ascending (host_date := SampleHost.api)
       (activeReminders (host_date := SampleHost.api) 1900000000000
          Scenario.stored)
  /\ Permutation
       (addReminder (host_date := SampleHost.api) Scenario.mom
          [Scenario.milk; Scenario.gym])
       [Scenario.mom; Scenario.milk; Scenario.gym]
  /\ In Scenario.milk (deleteReminder (JsString.ofInteger 3) Scenario.stored)
  /\ In Scenario.mom
       (activeReminders (host_date := SampleHost.api) 1900000000000
          Scenario.stored).
Proof.
  destruct (time_order_after_every_mutation (host_date := SampleHost.api))
    as [A [D [T [V [P [Dm [_ Vm]]]]]]].
  split; [|split; [|split; [|split; [|split; [|split]]]]].
  - apply A; [repeat constructor; sample_parseable | sample_parseable].
  - apply D, sample_stored_ascending.
  - apply T, sample_stored_ascending.
  - apply V, sample_stored_ascending.
  - apply P.
  - apply Dm. split; [right; right; left; reflexivity | cbv; discriminate].
  - apply Vm. split; [left; reflexivity | reflexivity].
Defined.

Lemma activeReminders_membership_witness :
  In Scenario.mom
    (activeReminders (host_date := SampleHost.api) 1900000000000
       Scenario.stored)
  /\ ~ In Scenario.gym
        (activeReminders (host_date := SampleHost.api) 1900000000000
           Scenario.stored)
  /\ activeReminders (host_date := SampleHost.api) 1900000000000
       [Scenario.gym] = []
  /\ activeReminders (host_date := SampleHost.api) 0 [Scenario.gym]
     = [Scenario.gym].
Proof.
  split; [|split; [|split]].
  - apply (activeReminders_membership (host_date := SampleHost.api)).
    split; [left; reflexivity | right; reflexivity].
  - destruct (activeReminders_membership (host_date := SampleHost.api)
                1900000000000 Scenario.stored Scenario.gym) as [_ [X _]].
    apply X; [right; left; reflexivity|].
    split; [reflexivity|]. intros t Ht. inversion Ht. cbv. discriminate.
  - destruct (activeReminders_membership (host_date := SampleHost.api)
                1900000000000 Scenario.stored Scenario.gym) as [_ [_ [X _]]].
    apply (X Scenario.tenOClockInstant);
      [reflexivity | cbv; discriminate | reflexivity].
  - destruct (activeReminders_membership (host_date := SampleHost.api)
                0 Scenario.stored Scenario.gym) as [_ [_ [_ X]]].
    apply (X Scenario.tenOClockInstant); reflexivity.
Defined.

Lemma blank_task_is_rejected_witness :
  JsString.blank (Card.task Scenario.blankDraft) = true
  /\ JsString.trim (Card.task Scenario.blankDraft) = []
  /\ FormErrors.task
       (Card.errors
          (card (snd (handleSubmit (host_date := SampleHost.api)
                        Scenario.allowing Scenario.blankDraft
                        (mkWorld Scenario.blankDraft Scenario.stored [])))))
     = Some "Please enter a task description"%string
  /\ reminders
       (snd (handleSubmit (host_date := SampleHost.api)
               Scenario.allowing Scenario.blankDraft
               (mkWorld Scenario.blankDraft Scenario.stored [])))
     = Scenario.stored
  /\ effects
       (snd (handleSubmit (host_date := SampleHost.api)
               Scenario.allowing Scenario.blankDraft
               (mkWorld Scenario.blankDraft Scenario.stored [])))
     = [].
Proof.
  split; [reflexivity|].
  apply (blank_task_is_rejected (host_date := SampleHost.api)
           Scenario.allowing Scenario.blankDraft
           (mkWorld Scenario.blankDraft Scenario.stored [])).
  reflexivity.
Defined.

Lemma past_or_missing_time_is_rejected_witness :
  FormErrors.time
    (Card.errors
       (card (snd (handleSubmit (host_date := SampleHost.api) Scenario.atTen
                     (Scenario.draft Scenario.callMom [])
                     (mkWorld (Scenario.draft Scenario.callMom [])
                        Scenario.stored [])))))
  = Some "Please select a time for your reminder"%string
  /\ FormErrors.time
       (Card.errors
          (card (snd (handleSubmit (host_date := SampleHost.api) Scenario.atTen
                        (Scenario.draft Scenario.callMom Scenario.tenOClock)
                        (mkWorld
                           (Scenario.draft Scenario.callMom Scenario.tenOClock)
                           Scenario.stored [])))))
     = Some "Please select a future time"%string
  /\ reminders
       (snd (handleSubmit (host_date := SampleHost.api) Scenario.atTen
               (Scenario.draft Scenario.callMom Scenario.tenOClock)
               (mkWorld (Scenario.draft Scenario.callMom Scenario.tenOClock)
                  Scenario.stored [])))
     = Scenario.stored
  /\ FormErrors.time
       (newErrors (host_date := SampleHost.api) Scenario.allowing
          (Scenario.draft Scenario.callMom Scenario.tenOClock))
     = None.
Proof.
  split; [|split; [|split]].
  - apply (past_or_missing_time_is_rejected (host_date := SampleHost.api)
             Scenario.atTen (Scenario.draft Scenario.callMom [])).
    reflexivity.
  - apply (past_or_missing_time_is_rejected (host_date := SampleHost.api)
             Scenario.atTen
             (Scenario.draft Scenario.callMom Scenario.tenOClock)
             (mkWorld (Scenario.draft Scenario.callMom Scenario.tenOClock)
                Scenario.stored [])) with (t := Scenario.tenOClockInstant);
      [discriminate | reflexivity | cbv; discriminate].
  - apply (past_or_missing_time_is_rejected (host_date := SampleHost.api)
             Scenario.atTen
             (Scenario.draft Scenario.callMom Scenario.tenOClock)
             (mkWorld (Scenario.draft Scenario.callMom Scenario.tenOClock)
                Scenario.stored [])) with (t := Scenario.tenOClockInstant);
      [discriminate | reflexivity | cbv; discriminate].
  - apply (past_or_missing_time_is_rejected (host_date := SampleHost.api)
             Scenario.allowing
             (Scenario.draft Scenario.callMom Scenario.tenOClock)
             (mkWorld (Scenario.draft Scenario.callMom Scenario.tenOClock)
                Scenario.stored [])) with (t := Scenario.tenOClockInstant);
      [discriminate | reflexivity | reflexivity].
Defined.

Lemma equal_times_keep_insertion_order_witness :
  Forall (parseable (host_date := SampleHost.api)) [Scenario.milk]
  /\ getTime (host_date := SampleHost.api) Scenario.mom
     = Some Scenario.tenOClockInstant
  /\ getTime (host_date := SampleHost.api) Scenario.gym
     = Some Scenario.tenOClockInstant
  /\ Precedes Scenario.mom Scenario.gym
       (addReminder (host_date := SampleHost.api) Scenario.gym
          (addReminder (host_date := SampleHost.api) Scenario.mom
             [Scenario.milk])).
Proof.
  assert (P : Forall (parseable (host_date := SampleHost.api)) [Scenario.milk])
    by (repeat constructor; sample_parseable).
  split; [exact P|]. split; [reflexivity|]. split; [reflexivity|].
  apply (equal_times_keep_insertion_order (host_date := SampleHost.api)
           [Scenario.milk] Scenario.mom Scenario.gym
           Scenario.tenOClockInstant P eq_refl eq_refl).
Defined.

Lemma deleteReminder_idempotent_witness :
  deleteReminder (JsString.ofInteger 3)
    (deleteReminder (JsString.ofInteger 3) Scenario.stored)
  = deleteReminder (JsString.ofInteger 3) Scenario.stored
  /\ deleteReminder (JsString.ofInteger 7) Scenario.stored = Scenario.stored.
Proof.
  split.
  - apply (deleteReminder_idempotent Scenario.stored (JsString.ofInteger 3)).
  - apply (deleteReminder_idempotent Scenario.stored (JsString.ofInteger 7)).
    cbv. intros [X|[X|[X|[]]]]; discriminate X.
Defined.

Lemma toggleComplete_involutive_witness :
  toggleComplete (JsString.ofInteger 1)
    (toggleComplete (JsString.ofInteger 1) Scenario.stored)
  = Scenario.stored
  /\ In (Scenario.reminderAt 1 Scenario.callMom Scenario.tenOClock true)
       (toggleComplete (JsString.ofInteger 1) Scenario.stored).
Proof.
  split.
  - apply (toggleComplete_involutive Scenario.stored (JsString.ofInteger 1)).
  - apply (toggleComplete_involutive Scenario.stored (JsString.ofInteger 1))
      with (r := Scenario.mom); [left; reflexivity | reflexivity].
Defined.

Lemma stored_task_is_verbatim_witness :
  accepted (host_date := SampleHost.api) Scenario.allowing Scenario.paddedDraft
  = true
  /\ JsString.trim (Card.task Scenario.paddedDraft) = Scenario.callMom
  /\ exists r,
       In r (reminders
               (snd (handleSubmit (host_date := SampleHost.api)
                       Scenario.allowing Scenario.paddedDraft
                       (mkWorld Scenario.paddedDraft [] []))))
       /\ Reminder.id r = JsString.ofInteger (creationClock Scenario.allowing)
       /\ Reminder.task r = JsString.lit "  Call mom  ".
Proof.
  split; [reflexivity|]. split; [reflexivity|].
  apply (stored_task_is_verbatim (host_date := SampleHost.api)
           Scenario.allowing Scenario.paddedDraft
           (mkWorld Scenario.paddedDraft [] [])).
  reflexivity.
Defined.

(* ================================================================== *)
(** ** The collection: further properties *)

Section StoreMore.

Context {host_date : DateApi}.

Lemma time_le_key_le (a b : Reminder) : time_le a b -> key_le timeKey a b.
Proof.
  intros [ta [tb [Ha [Hb L]]]]. unfold key_le, timeKey.
  rewrite Ha, Hb. exact L.
Qed.

Lemma ascending_key_sorted (l : list Reminder) :
  Ascending l -> StronglySorted (key_le timeKey) l.
Proof.
  induction 1 as [|x l S IH F]; constructor; [exact IH|].
  eapply Forall_impl; [|exact F]. intros b. apply time_le_key_le.
Qed.

Lemma filter_comm {A} (f g : A -> bool) (l : list A) :
  filter f (filter g l) = filter g (filter f l).
Proof.
  induction l as [|x l IH]; [reflexivity|]. simpl.
  destruct (f x) eqn:Fx, (g x) eqn:Gx; simpl;
    rewrite ?Fx, ?Gx, IH; reflexivity.
Qed.

Lemma deleteReminder_absent (id : jsstring) (l : list Reminder) :
  ~ In id (map Reminder.id l) -> deleteReminder id l = l.
Proof.
  unfold deleteReminder. induction l as [|r l IH]; [reflexivity|].
  simpl. intros N.
  destruct (JsString.eqb (Reminder.id r) id) eqn:E; simpl.
  - apply eqb_eq in E. exfalso. apply N. left. exact E.
  - rewrite IH; [reflexivity|]. intros I. apply N. right. exact I.
Qed.

Lemma deleteReminder_app (id : jsstring) (l1 l2 : list Reminder) :
  deleteReminder id (l1 ++ l2) = deleteReminder id l1 ++ deleteReminder id l2.
Proof. apply filter_app. Qed.

(** X14.  Adding a reminder under an id of its own and deleting that id again
    gives back an ordered collection as it was. *)
Theorem delete_after_add_restores (prev : list Reminder) (r : Reminder) :
  Forall parseable prev -> parseable r -> Ascending prev ->
  ~ In (Reminder.id r) (map Reminder.id prev) ->
  deleteReminder (Reminder.id r) (addReminder r prev) = prev.
Proof.
  intros Pp Pr Asc Fresh.
  assert (Pa : Forall parseable (prev ++ [r])).
  { apply Forall_app; split; [exact Pp | constructor; [exact Pr | constructor]]. }
  apply (sorted_by_classes timeKey).
  - apply filter_StronglySorted.
    apply (sort_sorted byTime timeKey parseable byTime_key), Pa.
  - apply ascending_key_sorted, Asc.
  - intros t. unfold deleteReminder at 1. rewrite filter_comm.
    unfold addReminder.
    rewrite (sort_stable byTime timeKey parseable byTime_key) by exact Pa.
    rewrite filter_comm.
    change (filter (has_key timeKey t)
              (deleteReminder (Reminder.id r) (prev ++ [r]))
            = filter (has_key timeKey t) prev).
    rewrite deleteReminder_app, (deleteReminder_absent _ prev Fresh).
    unfold deleteReminder at 1. simpl. rewrite eqb_refl. simpl.
    rewrite app_nil_r. reflexivity.
Qed.

(** X16.  Deleting keeps exactly the reminders under other ids; in a collection
    of distinct ids that holds the id, exactly one reminder goes. *)
Theorem deleteReminder_removes_the_id (id : jsstring) (l : list Reminder) :
  (forall r, In r (deleteReminder id l) <-> In r l /\ Reminder.id r <> id)
  /\ ~ In id (map Reminder.id (deleteReminder id l))
  /\ (NoDup (map Reminder.id l) -> In id (map Reminder.id l) ->
      S (List.length (deleteReminder id l)) = List.length l).
Proof.
  assert (M : forall r, In r (deleteReminder id l) <->
                        In r l /\ Reminder.id r <> id).
  { intros r. unfold deleteReminder. rewrite filter_In, negb_true_iff.
    split; intros [I E]; (split; [exact I|]).
    - intros X. apply eqb_eq in X. congruence.
    - destruct (JsString.eqb (Reminder.id r) id) eqn:X; [|reflexivity].
      apply eqb_eq in X. contradiction. }
  split; [exact M|]. split.
  - intros I. apply in_map_iff in I. destruct I as [r [E I]].
    apply M in I. destruct I as [_ N]. contradiction.
  - induction l as [|r l IH]; simpl; intros D I; [contradiction|].
    inversion D as [|? ? Nin D']; subst.
    destruct (JsString.eqb (Reminder.id r) id) eqn:E; simpl.
    + apply eqb_eq in E. subst id.
      change (filter _ l) with (deleteReminder (Reminder.id r) l).
      rewrite (deleteReminder_absent _ l Nin). reflexivity.
    + f_equal. destruct I as [I|I].
      * rewrite I, eqb_refl in E. discriminate.
      * apply IH; try assumption.
        intros r0. unfold deleteReminder. rewrite filter_In, negb_true_iff.
        split; intros [I0 E0]; (split; [exact I0|]).
        -- intros X. apply eqb_eq in X. congruence.
        -- destruct (JsString.eqb (Reminder.id r0) id) eqn:X; [|reflexivity].
           apply eqb_eq in X. contradiction.
Qed.

Lemma toggled_id (id : jsstring) (r : Reminder) :
  Reminder.id (toggled id r) = Reminder.id r.
Proof.
  unfold toggled. destruct (JsString.eqb (Reminder.id r) id); reflexivity.
Qed.

(** X17.  Toggling changes nothing but [completed], and that only under the given
    id: ids, tasks, times and notification flags stay as they are, place by
    place, and a reminder under another id stays as it is. *)
Theorem toggleComplete_changes_only_completed (id : jsstring)
    (l : list Reminder) :
  map Reminder.id (toggleComplete id l) = map Reminder.id l
  /\ map Reminder.task (toggleComplete id l) = map Reminder.task l
  /\ map Reminder.time (toggleComplete id l) = map Reminder.time l
  /\ map Reminder.notifications (toggleComplete id l)
     = map Reminder.notifications l
  /\ map Reminder.completed (toggleComplete id l)
     = map (fun r => xorb (JsString.eqb (Reminder.id r) id)
                       (Reminder.completed r)) l
  /\ (forall r, In r l -> Reminder.id r <> id -> In r (toggleComplete id l)).
Proof.
  change (toggleComplete id l) with (map (toggled id) l).
  repeat split; try (rewrite map_map; apply map_ext; intros r; unfold toggled;
    destruct (JsString.eqb (Reminder.id r) id); reflexivity).
  intros r I N. apply in_map_iff. exists r. split; [|exact I].
  unfold toggled. destruct (JsString.eqb (Reminder.id r) id) eqn:E;
    [|reflexivity].
  apply eqb_eq in E. contradiction.
Qed.

Lemma filter_map_swap {A B} (f : B -> bool) (g : A -> B) (l : list A) :
  filter f (map g l) = map g (filter (fun x => f (g x)) l).
Proof.
  induction l as [|x l IH]; [reflexivity|]. simpl.
  destruct (f (g x)); simpl; rewrite IH; reflexivity.
Qed.

(** X18.  Deletion commutes with the other operations: with a toggle of any id,
    with another deletion, and with the view. *)
Theorem deleteReminder_commutes (id id' : jsstring) (now : Z)
    (l : list Reminder) :
  deleteReminder id (toggleComplete id' l)
  = toggleComplete id' (deleteReminder id l)
  /\ deleteReminder id (deleteReminder id' l)
     = deleteReminder id' (deleteReminder id l)
  /\ activeReminders now (deleteReminder id l)
     = deleteReminder id (activeReminders now l).
Proof.
  split; [|split].
  - change (toggleComplete id' (deleteReminder id l))
      with (map (toggled id') (deleteReminder id l)).
    change (toggleComplete id' l) with (map (toggled id') l).
    unfold deleteReminder. rewrite filter_map_swap. f_equal.
    apply filter_ext. intros r. rewrite toggled_id. reflexivity.
  - apply filter_comm.
  - apply filter_comm.
Qed.

(** X15.  With parseable times the result of [addReminder] is the one arrangement
    of the old reminders and the new one that is in non-decreasing order of
    time and keeps, among the reminders of each instant, the old ones in
    their order and the new one last. *)
Theorem addReminder_characterised (prev : list Reminder) (r : Reminder)
    (l : list Reminder) :
  Forall parseable prev -> parseable r ->
  (l = addReminder r prev <->
   Ascending l
   /\ forall t, filter (has_key timeKey t) l
               = filter (has_key timeKey t) prev
                 ++ filter (has_key timeKey t) [r]).
Proof.
  intros Pp Pr.
  assert (Pa : Forall parseable (prev ++ [r])).
  { apply Forall_app; split; [exact Pp | constructor; [exact Pr | constructor]]. }
  split.
  - intros ->. split; [apply addReminder_ascending; assumption|].
    intros t. rewrite addReminder_stable by assumption. apply filter_app.
  - intros [Asc E]. unfold addReminder.
    apply (sort_determined byTime timeKey parseable byTime_key);
      [exact Pa | apply ascending_key_sorted, Asc|].
    intros t. rewrite E, filter_app. reflexivity.
Qed.

Lemma isActive_iff (now : Z) (r : Reminder) :
  isActive now r = false <->
  Reminder.completed r = true /\ forall t, getTime r = Some t -> t <= now.
Proof.
  unfold isActive, num_gt. rewrite orb_false_iff, negb_false_iff.
  destruct (getTime r) as [t|]; split.
  - intros [L C]. split; [exact C|]. intros t' E. inversion E; subst.
    apply Z.ltb_ge, L.
  - intros [C P]. split; [apply Z.ltb_ge, P; reflexivity | exact C].
  - intros [_ C]. split; [exact C | discriminate].
  - intros [C _]. split; [reflexivity | exact C].
Qed.

(** X19.  The empty card is rendered exactly when every reminder is completed and
    none is due after the clock; otherwise the items are the active
    reminders, at least one, in the order of the collection. *)
Theorem UpcomingReminders_empty_card (now : Z) (l : list Reminder) :
  (UpcomingReminders now l = NoUpcoming <->
   forall r, In r l ->
     Reminder.completed r = true /\ forall t, getTime r = Some t -> t <= now)
  /\ (forall items, UpcomingReminders now l = Items items ->
      items = activeReminders now l /\ items <> []).
Proof.
  unfold UpcomingReminders. split.
  - destruct (activeReminders now l) as [|a active] eqn:E; simpl; split.
    + intros _ r I. apply isActive_iff.
      destruct (isActive now r) eqn:A; [|reflexivity].
      assert (X : In r (activeReminders now l))
        by (apply filter_In; auto).
      rewrite E in X. contradiction.
    + reflexivity.
    + discriminate.
    + intros P. exfalso.
      assert (X : In a (activeReminders now l)) by (rewrite E; left; reflexivity).
      apply filter_In in X. destruct X as [I A].
      specialize (P a I). apply isActive_iff in P. congruence.
  - intros items. destruct (activeReminders now l) as [|a active]; simpl.
    + discriminate.
    + intros X. inversion X. split; [reflexivity | discriminate].
Qed.

(** X20.  The Overdue badge is shown exactly for a reminder that is not completed
    and whose time parses to an instant before the item's clock.  A
    completed reminder never carries it, a reminder due at the very instant
    of the clock does not carry it, and every reminder that carries it is in
    the active list whatever the list's clock reads. *)
Theorem overdue_badge (itemNow listNow : Z) (r : Reminder) :
  (overdue itemNow r = true <->
   Reminder.completed r = false
   /\ exists t, getTime r = Some t /\ t < itemNow)
  /\ (Reminder.completed r = true -> overdue itemNow r = false)
  /\ (getTime r = Some itemNow -> overdue itemNow r = false)
  /\ (overdue itemNow r = true -> isActive listNow r = true).
Proof.
  unfold overdue, isPast, isActive, num_lt, num_gt.
  split; [|split; [|split]].
  - rewrite andb_true_iff, negb_true_iff.
    destruct (getTime r) as [t|]; split.
    + intros [L C]. split; [exact C|]. exists t.
      split; [reflexivity | apply Z.ltb_lt, L].
    + intros [C [t' [E L]]]. inversion E; subst.
      split; [apply Z.ltb_lt, L | exact C].
    + intros [L _]. discriminate.
    + intros [_ [t' [E _]]]. discriminate.
  - intros ->. apply andb_false_r.
  - intros ->. rewrite Z.ltb_irrefl. reflexivity.
  - intros H. apply andb_true_iff in H. destruct H as [_ C].
    rewrite C. apply orb_true_r.
Qed.

(** X21.  Toggling an id leaves the visibility of the reminders under other ids
    alone; a reminder under the id that is not due after the clock changes
    sides, shown when it was hidden and hidden when it was shown, and one
    that is due after the clock stays shown. *)
Theorem toggle_and_visibility (id : jsstring) (now : Z) (l : list Reminder) :
  deleteReminder id (activeReminders now (toggleComplete id l))
  = deleteReminder id (activeReminders now l)
  /\ (forall r, Reminder.id r = id -> num_gt (getTime r) now = false ->
      activeReminders now (toggleComplete id [r])
      = if isActive now r then [] else toggleComplete id [r])
  /\ (forall r, num_gt (getTime r) now = true ->
      activeReminders now (toggleComplete id [r]) = toggleComplete id [r]).
Proof.
  split; [|split].
  - change (toggleComplete id l) with (map (toggled id) l).
    unfold deleteReminder, activeReminders.
    induction l as [|r l IH]; [reflexivity|]. simpl.
    destruct (JsString.eqb (Reminder.id r) id) eqn:E.
    + assert (T : forall (b : bool) (x : Reminder) (tl : list Reminder),
                    JsString.eqb (Reminder.id x) id = true ->
                    filter (fun reminder =>
                              negb (JsString.eqb (Reminder.id reminder) id))
                      (if b then x :: tl else tl)
                    = filter (fun reminder =>
                                negb (JsString.eqb (Reminder.id reminder) id))
                        tl).
      { intros b x tl Ex. destruct b; [|reflexivity]. simpl. rewrite Ex.
        reflexivity. }
      rewrite T by (first [rewrite toggled_id; exact E | simpl; exact E]).
      rewrite T by exact E. exact IH.
    + assert (U : toggled id r = r) by (unfold toggled; rewrite E; reflexivity).
      rewrite U. destruct (isActive now r); simpl; rewrite ?E; simpl;
        rewrite IH; reflexivity.
  - intros r E G. unfold activeReminders, toggleComplete. simpl.
    rewrite E, eqb_refl. unfold isActive, getTime in *. simpl.
    rewrite G. simpl. destruct (Reminder.completed r); reflexivity.
  - intros r G. unfold activeReminders, toggleComplete. simpl.
    destruct (JsString.eqb (Reminder.id r) id); unfold isActive, getTime in *;
      simpl; rewrite G; reflexivity.
Qed.

End StoreMore.

(* ================================================================== *)
(** ** The submission pipeline: further properties *)

Section PipelineMore.

Context {host_date : DateApi}.

(** X7.  Every run of [handleSubmit], in the page and in the stand-alone form,
    ends with [isSubmitting] false, whichever way it returns. *)
Theorem handleSubmit_ends_idle (host : Host) (snap : Card.t) (w : World) :
  Card.isSubmitting (card (snd (handleSubmit host snap w))) = false
  /\ Card.isSubmitting
       (card (snd (StandaloneCard.handleSubmit host snap w))) = false.
Proof.
  split.
  - unfold_pipeline. simpl. pipeline_cases host snap; reflexivity.
  - unfold StandaloneCard.handleSubmit. unfold_pipeline. simpl.
    pipeline_cases host snap; reflexivity.
Qed.

(** X2.  The draft is valid exactly when the task has a character that is not
    white space, the time is not empty and does not parse to an instant at or
    before the clock, and notifications are not both wanted and denied. *)
Theorem validation_passes_iff (host : Host) (snap : Card.t) :
  FormErrors.noKeys (newErrors host snap) = true <->
  JsString.blank (Card.task snap) = false
  /\ Card.time snap <> []
  /\ (forall t, dateParse (Card.time snap) = Some t -> validationClock host < t)
  /\ ~ (Card.notifications snap = true
        /\ Card.notificationPermission snap = denied).
Proof.
  unfold FormErrors.noKeys, newErrors. simpl. rewrite falsy_trim.
  destruct (JsString.blank (Card.task snap)); simpl.
  { split; [discriminate | intros [X _]; discriminate]. }
  destruct (Card.time snap) as [|c s] eqn:T; simpl.
  { split; [discriminate | intros [_ [X _]]; congruence]. }
  unfold num_le. destruct (dateParse (c :: s)) as [t|] eqn:P.
  - destruct (Z.leb_spec t (validationClock host)) as [L|L].
    + split; [discriminate|]. intros [_ [_ [X _]]].
      specialize (X t eq_refl). lia.
    + destruct (Card.notifications snap),
        (Card.notificationPermission snap); simpl;
        (split; [intros H; try discriminate H; repeat split;
                 try discriminate;
                 try (intros t' E; inversion E; subst; exact L);
                 try (intros [X Y]; discriminate)
                | intros [_ [_ [_ X]]]; try reflexivity;
                  exfalso; apply X; split; reflexivity]).
  - destruct (Card.notifications snap),
      (Card.notificationPermission snap); simpl;
      (split; [intros H; try discriminate H; repeat split;
               try discriminate;
               try (intros [X Y]; discriminate)
              | intros [_ [_ [_ X]]]; try reflexivity;
                exfalso; apply X; split; reflexivity]).
Qed.

(** X4.  Notifications wanted in a render that holds ["denied"]: the draft gets
    the blocked-notifications error, and nothing is stored, shown or asked;
    the permission cell stays as it is. *)
Theorem blocked_notifications_are_rejected (host : Host) (snap : Card.t)
    (w : World) :
  Card.notifications snap = true ->
  Card.notificationPermission snap = denied ->
  FormErrors.notification (Card.errors (card (snd (handleSubmit host snap w))))
  = Some "Notifications are blocked by your browser"%string
  /\ reminders (snd (handleSubmit host snap w)) = reminders w
  /\ effects (snd (handleSubmit host snap w)) = effects w
  /\ Card.notificationPermission (card (snd (handleSubmit host snap w)))
     = Card.notificationPermission (card w).
Proof.
  intros N D.
  assert (T : FormErrors.notification (newErrors host snap)
              = Some "Notifications are blocked by your browser"%string)
    by (unfold newErrors; simpl; rewrite N, D; reflexivity).
  assert (V : FormErrors.noKeys (newErrors host snap) = false).
  { unfold FormErrors.noKeys. rewrite T.
    destruct (FormErrors.task (newErrors host snap)),
      (FormErrors.time (newErrors host snap)); reflexivity. }
  rewrite (handleSubmit_invalid host snap w V). simpl. auto.
Qed.

(** X5.  A valid draft that needs the permission and does not get it: the only
    error is the one asking to allow notifications, the collection and the
    fields of the form stay as they are, and no toast or notification is
    shown. *)
Theorem refused_prompt_is_rejected (host : Host) (snap : Card.t) (w : World) :
  FormErrors.noKeys (newErrors host snap) = true ->
  needsPrompt snap = true -> promptGrants host = false ->
  Card.errors (card (snd (handleSubmit host snap w)))
  = FormErrors.mk None None
      (Some "Please allow notifications to receive reminders"%string)
  /\ reminders (snd (handleSubmit host snap w)) = reminders w
  /\ Card.task (card (snd (handleSubmit host snap w))) = Card.task (card w)
  /\ Card.time (card (snd (handleSubmit host snap w))) = Card.time (card w)
  /\ (forall title body,
        In (Toast title body) (effects (snd (handleSubmit host snap w))) ->
        In (Toast title body) (effects w))
  /\ (forall title body,
        In (NewNotification title body)
           (effects (snd (handleSubmit host snap w))) ->
        In (NewNotification title body) (effects w)).
Proof.
  intros V N G.
  assert (E : newErrors host snap = FormErrors.empty).
  { unfold FormErrors.noKeys in V. destruct (newErrors host snap) as [a b c].
    simpl in V. destruct a, b, c; try discriminate. reflexivity. }
  unfold needsPrompt in N. unfold promptGrants in G.
  unfold_pipeline. simpl. rewrite V, N, E. simpl.
  destruct (prompt host) as [|[| |]|]; simpl; try discriminate;
    repeat split; auto;
    intros title body I; apply in_app_or in I;
    destruct I as [I|[I|[]]]; try exact I; discriminate.
Qed.

Lemma handleSubmit_accepted_card (host : Host) (snap : Card.t) (w : World) :
  accepted host snap = true ->
  card (snd (handleSubmit host snap w))
  = Card.mk [] [] (Card.notifications (card w)) false FormErrors.empty
      (if needsPrompt snap then granted
       else Card.notificationPermission (card w)).
Proof.
  unfold accepted, needsPrompt, promptGrants. intros E.
  apply andb_true_iff in E. destruct E as [V G].
  unfold_pipeline. simpl. rewrite V. simpl.
  destruct (Card.notifications snap); simpl in *; [|reflexivity].
  destruct (Card.notificationPermission snap); simpl in *; try reflexivity;
    destruct (prompt host) as [|[| |]|]; try discriminate; reflexivity.
Qed.

(** X6.  The state of the form after an accepted draft: task and time are empty,
    the errors are gone, the switch is as it was, and the permission cell
    holds ["granted"] when the permission had to be asked for. *)
Theorem accepted_submission_resets_form (host : Host) (snap : Card.t)
    (w : World) :
  accepted host snap = true ->
  card (snd (handleSubmit host snap w))
  = Card.mk [] [] (Card.notifications (card w)) false FormErrors.empty
      (if needsPrompt snap then granted
       else Card.notificationPermission (card w)).
Proof. apply handleSubmit_accepted_card. Qed.

(** X1.  A submission stores one reminder or none: an accepted draft makes the
    collection a rearrangement of the old reminders and the new one, which is
    not completed; any other draft leaves the collection as it is.  No
    submission drops a reminder. *)
Theorem submission_adds_one_or_nothing (host : Host) (snap : Card.t)
    (w : World) :
  (if accepted host snap
   then Permutation (reminders (snd (handleSubmit host snap w)))
          (createdReminder host snap :: reminders w)
   else reminders (snd (handleSubmit host snap w)) = reminders w)
  /\ List.length (reminders (snd (handleSubmit host snap w)))
     = (List.length (reminders w) + if accepted host snap then 1 else 0)%nat
  /\ Reminder.completed (createdReminder host snap) = false
  /\ (forall r, In r (reminders w) ->
        In r (reminders (snd (handleSubmit host snap w)))).
Proof.
  destruct (accepted host snap) eqn:Acc.
  - destruct (handleSubmit_accepted host snap w Acc) as [R _]. rewrite R.
    pose proof (addReminder_perm (createdReminder host snap) (reminders w))
      as P.
    split; [exact P|]. split; [|split; [reflexivity|]].
    + rewrite (Permutation_length P). simpl. lia.
    + intros r I. eapply Permutation_in; [apply Permutation_sym, P|].
      right. exact I.
  - destruct (handleSubmit_rejected host snap w Acc) as [R _]. rewrite R.
    split; [reflexivity|]. split; [lia|]. split; [reflexivity | auto].
Qed.

(** X3.  A time that is not empty and does not parse passes the validation: with
    a task that is not blank and notifications off, the draft is accepted
    and a reminder whose time has no instant is stored. *)
Theorem unparseable_time_is_accepted (host : Host) (snap : Card.t)
    (w : World) :
  JsString.blank (Card.task snap) = false ->
  Card.time snap <> [] -> dateParse (Card.time snap) = None ->
  Card.notifications snap = false ->
  accepted host snap = true
  /\ In (createdReminder host snap) (reminders (snd (handleSubmit host snap w)))
  /\ getTime (createdReminder host snap) = None.
Proof.
  intros B T P N.
  assert (V : FormErrors.noKeys (newErrors host snap) = true).
  { unfold FormErrors.noKeys, newErrors. simpl. rewrite falsy_trim, B, N.
    destruct (Card.time snap); [congruence|]. simpl. rewrite P. reflexivity. }
  assert (Acc : accepted host snap = true).
  { unfold accepted, needsPrompt. rewrite V, N. reflexivity. }
  split; [exact Acc|]. split; [|exact P].
  destruct (handleSubmit_accepted host snap w Acc) as [R _]. rewrite R.
  eapply Permutation_in; [apply Permutation_sym, addReminder_perm|].
  left. reflexivity.
Qed.

(** X8.  The permission cell after a submission: the prompt is put only for a
    valid draft with notifications wanted in a render that does not hold
    ["granted"], and the cell then takes the answer when there is one; in
    every other run the cell stays as it is. *)
Theorem permission_after_submission (host : Host) (snap : Card.t) (w : World) :
  Card.notificationPermission (card (snd (handleSubmit host snap w)))
  = if FormErrors.noKeys (newErrors host snap) && needsPrompt snap
    then match prompt host with
         | Resolves permission => permission
         | _ => Card.notificationPermission (card w)
         end
    else Card.notificationPermission (card w).
Proof.
  unfold needsPrompt. unfold_pipeline. simpl.
  pipeline_cases host snap; reflexivity.
Qed.

(** X11.  The form of [src/reminder-card.tsx] behaves as the one in the page in
    every cell of its state and in every effect, and stores nothing. *)
Theorem standalone_card_agrees (host : Host) (snap : Card.t) (w : World) :
  card (snd (StandaloneCard.handleSubmit host snap w))
  = card (snd (handleSubmit host snap w))
  /\ effects (snd (StandaloneCard.handleSubmit host snap w))
     = effects (snd (handleSubmit host snap w))
  /\ reminders (snd (StandaloneCard.handleSubmit host snap w)) = reminders w.
Proof.
  unfold StandaloneCard.handleSubmit. unfold_pipeline. simpl.
  pipeline_cases host snap; repeat split.
Qed.

(** X12.  Editing from the current render: typing a task or picking a time sets
    that field and clears that field's error, switching notifications off
    clears the notification error and puts no prompt; the other fields and
    errors, the collection and the effects stay as they are. *)
Theorem editing_clears_own_error (value : jsstring) (host : Host) (w : World) :
  snd (onTaskChange value (card w) w)
  = mkWorld
      (Card.mk value (Card.time (card w)) (Card.notifications (card w))
         (Card.isSubmitting (card w))
         (FormErrors.mk None (FormErrors.time (Card.errors (card w)))
            (FormErrors.notification (Card.errors (card w))))
         (Card.notificationPermission (card w)))
      (reminders w) (effects w)
  /\ snd (onTimeChange value (card w) w)
     = mkWorld
         (Card.mk (Card.task (card w)) value (Card.notifications (card w))
            (Card.isSubmitting (card w))
            (FormErrors.mk (FormErrors.task (Card.errors (card w))) None
               (FormErrors.notification (Card.errors (card w))))
            (Card.notificationPermission (card w)))
         (reminders w) (effects w)
  /\ snd (onNotificationsChange false host (card w) w)
     = mkWorld
         (Card.mk (Card.task (card w)) (Card.time (card w)) false
            (Card.isSubmitting (card w))
            (FormErrors.mk (FormErrors.task (Card.errors (card w)))
               (FormErrors.time (Card.errors (card w))) None)
            (Card.notificationPermission (card w)))
         (reminders w) (effects w).
Proof.
  destruct w as [[task time notifications submitting [et ett en] permission]
                   stored done].
  unfold onTaskChange, onTimeChange, onNotificationsChange.
  unfold_pipeline. unfold setNotifications, modifyCard. simpl.
  destruct et, ett, en; repeat split.
Qed.






End PipelineMore.

(* ================================================================== *)
(** ** Further sample runs *)

Lemma sample_pair_ascending :
  Ascending (host_date := SampleHost.api) [Scenario.mom; Scenario.milk].
Proof. repeat (constructor; try sample_time_le). Defined.

Lemma sample_pair_parseable :
  Forall (parseable (host_date := SampleHost.api))
    [Scenario.mom; Scenario.milk].
Proof. repeat constructor; sample_parseable. Defined.

Lemma sample_stored_distinct : NoDup (map Reminder.id Scenario.stored).
Proof.
  repeat constructor; cbv;
    try (intros [X|[X|[]]]; discriminate X);
    try (intros [X|[]]; discriminate X);
    try (intros []).
Defined.

Lemma delete_after_add_restores_witness :
  deleteReminder (JsString.ofInteger 3)
    (addReminder (host_date := SampleHost.api) Scenario.gym
       [Scenario.mom; Scenario.milk])
  = [Scenario.mom; Scenario.milk].
Proof.
  apply (delete_after_add_restores (host_date := SampleHost.api)
           [Scenario.mom; Scenario.milk] Scenario.gym).
  - exact sample_pair_parseable.
  - sample_parseable.
  - exact sample_pair_ascending.
  - cbv. intros [X|[X|[]]]; discriminate X.
Defined.

Lemma deleteReminder_removes_the_id_witness :
  S (List.length (deleteReminder (JsString.ofInteger 3) Scenario.stored))
  = List.length Scenario.stored.
Proof.
  apply (deleteReminder_removes_the_id (JsString.ofInteger 3) Scenario.stored).
  - exact sample_stored_distinct.
  - right. left. reflexivity.
Defined.

Lemma toggleComplete_changes_only_completed_witness :
  In Scenario.milk (toggleComplete (JsString.ofInteger 1) Scenario.stored).
Proof.
  apply (toggleComplete_changes_only_completed (JsString.ofInteger 1)
           Scenario.stored).
  - right. right. left. reflexivity.
  - cbv. discriminate.
Defined.

Lemma addReminder_characterised_witness :
  Ascending (host_date := SampleHost.api)
    (addReminder (host_date := SampleHost.api) Scenario.gym
       [Scenario.mom; Scenario.milk]).
Proof.
  apply (addReminder_characterised (host_date := SampleHost.api)
           [Scenario.mom; Scenario.milk] Scenario.gym
           (addReminder (host_date := SampleHost.api) Scenario.gym
              [Scenario.mom; Scenario.milk])).
  - exact sample_pair_parseable.
  - sample_parseable.
  - reflexivity.
Defined.

Lemma UpcomingReminders_empty_card_witness :
  UpcomingReminders (host_date := SampleHost.api) 1900000000000
    [Scenario.gym] = NoUpcoming.
Proof.
  apply (UpcomingReminders_empty_card (host_date := SampleHost.api)
           1900000000000 [Scenario.gym]).
  intros r [<-|[]]. split; [reflexivity|].
  intros t E. inversion E. cbv. discriminate.
Defined.

Lemma overdue_badge_witness :
  overdue (host_date := SampleHost.api) 1900000000000 Scenario.mom = true
  /\ isActive (host_date := SampleHost.api) 0 Scenario.mom = true.
Proof.
  destruct (overdue_badge (host_date := SampleHost.api) 1900000000000 0
              Scenario.mom) as [[_ B] [_ [_ A]]].
  assert (O : overdue (host_date := SampleHost.api) 1900000000000
                Scenario.mom = true).
  { apply B. split; [reflexivity|]. exists Scenario.tenOClockInstant.
    split; reflexivity. }
  split; [exact O | exact (A O)].
Defined.

Lemma toggle_and_visibility_witness :
  activeReminders (host_date := SampleHost.api) 1900000000000
    (toggleComplete (JsString.ofInteger 1) [Scenario.mom]) = []
  /\ activeReminders (host_date := SampleHost.api) 0
       (toggleComplete (JsString.ofInteger 1) [Scenario.mom])
     = toggleComplete (JsString.ofInteger 1) [Scenario.mom].
Proof.
  split.
  - apply (toggle_and_visibility (host_date := SampleHost.api)
             (JsString.ofInteger 1) 1900000000000 [] ); reflexivity.
  - apply (toggle_and_visibility (host_date := SampleHost.api)
             (JsString.ofInteger 1) 0 []); reflexivity.
Defined.

Lemma validation_passes_iff_witness :
  FormErrors.noKeys
    (newErrors (host_date := SampleHost.api) Scenario.allowing
       (Scenario.draft Scenario.callMom Scenario.tenOClock)) = true.
Proof.
  apply (validation_passes_iff (host_date := SampleHost.api)).
  split; [reflexivity|]. split; [discriminate|]. split.
  - intros t E. inversion E. reflexivity.
  - intros [X _]. discriminate X.
Defined.

Lemma blocked_notifications_are_rejected_witness :
  FormErrors.notification
    (Card.errors
       (card (snd (handleSubmit (host_date := SampleHost.api)
                     Scenario.allowing (Scenario.notifyingDraft denied)
                     (mkWorld (Scenario.notifyingDraft denied)
                        Scenario.stored [])))))
  = Some "Notifications are blocked by your browser"%string
  /\ reminders
       (snd (handleSubmit (host_date := SampleHost.api)
               Scenario.allowing (Scenario.notifyingDraft denied)
               (mkWorld (Scenario.notifyingDraft denied) Scenario.stored [])))
     = Scenario.stored
  /\ effects
       (snd (handleSubmit (host_date := SampleHost.api)
               Scenario.allowing (Scenario.notifyingDraft denied)
               (mkWorld (Scenario.notifyingDraft denied) Scenario.stored [])))
     = []
  /\ Card.notificationPermission
       (card (snd (handleSubmit (host_date := SampleHost.api)
                     Scenario.allowing (Scenario.notifyingDraft denied)
                     (mkWorld (Scenario.notifyingDraft denied)
                        Scenario.stored []))))
     = denied.
Proof.
  apply (blocked_notifications_are_rejected (host_date := SampleHost.api)
           Scenario.allowing (Scenario.notifyingDraft denied)
           (mkWorld (Scenario.notifyingDraft denied) Scenario.stored []));
    reflexivity.
Defined.

Lemma refused_prompt_is_rejected_witness :
  Card.errors
    (card (snd (handleSubmit (host_date := SampleHost.api)
                  Scenario.blocking (Scenario.notifyingDraft default)
                  (mkWorld (Scenario.notifyingDraft default)
                     Scenario.stored []))))
  = FormErrors.mk None None
      (Some "Please allow notifications to receive reminders"%string)
  /\ reminders
       (snd (handleSubmit (host_date := SampleHost.api)
               Scenario.blocking (Scenario.notifyingDraft default)
               (mkWorld (Scenario.notifyingDraft default) Scenario.stored [])))
     = Scenario.stored.
Proof.
  destruct (refused_prompt_is_rejected (host_date := SampleHost.api)
              Scenario.blocking (Scenario.notifyingDraft default)
              (mkWorld (Scenario.notifyingDraft default) Scenario.stored [])
              eq_refl eq_refl eq_refl) as [E [R _]].
  split; [exact E | exact R].
Defined.

Lemma accepted_submission_resets_form_witness :
  card (snd (handleSubmit (host_date := SampleHost.api)
               Scenario.allowing (Scenario.notifyingDraft default)
               (mkWorld (Scenario.notifyingDraft default) Scenario.stored [])))
  = Card.mk [] [] true false FormErrors.empty granted.
Proof.
  apply (accepted_submission_resets_form (host_date := SampleHost.api)
           Scenario.allowing (Scenario.notifyingDraft default)
           (mkWorld (Scenario.notifyingDraft default) Scenario.stored [])).
  reflexivity.
Defined.

Lemma submission_adds_one_or_nothing_witness :
  In Scenario.milk
    (reminders
       (snd (handleSubmit (host_date := SampleHost.api)
               Scenario.allowing Scenario.paddedDraft
               (mkWorld Scenario.paddedDraft Scenario.stored [])))).
Proof.
  apply (submission_adds_one_or_nothing (host_date := SampleHost.api)
           Scenario.allowing Scenario.paddedDraft
           (mkWorld Scenario.paddedDraft Scenario.stored [])).
  right. right. left. reflexivity.
Defined.

Lemma unparseable_time_is_accepted_witness :
  accepted (host_date := SampleHost.api) Scenario.allowing Scenario.vagueDraft
  = true
  /\ In (createdReminder Scenario.allowing Scenario.vagueDraft)
       (reminders
          (snd (handleSubmit (host_date := SampleHost.api)
                  Scenario.allowing Scenario.vagueDraft
                  (mkWorld Scenario.vagueDraft Scenario.stored []))))
  /\ getTime (host_date := SampleHost.api)
       (createdReminder Scenario.allowing Scenario.vagueDraft) = None.
Proof.
  apply (unparseable_time_is_accepted (host_date := SampleHost.api)
           Scenario.allowing Scenario.vagueDraft
           (mkWorld Scenario.vagueDraft Scenario.stored []));
    [reflexivity | discriminate | reflexivity | reflexivity].
Defined.



Lemma distinct_clocks_distinct_ids_witness :
  NoDup
    (map Reminder.id
       (reminders
          (snd (handleSubmit (host_date := SampleHost.api) Scenario.later
                  (Scenario.draft Scenario.buyMilk Scenario.noon)
                  Scenario.firstSubmitted)))).
Proof.
  apply (distinct_clocks_distinct_ids (host_date := SampleHost.api)
           Scenario.later (Scenario.draft Scenario.buyMilk Scenario.noon)
           Scenario.firstSubmitted).
  - reflexivity.
  - repeat constructor. cbv. intros [].
  - intros r [<-|[]]. exists 1700000000005. split; [reflexivity|].
    cbv. discriminate.
Defined.
